(** * nova-scheduler: the schedule and announcement logic of [main.py]

    A shallow embedding of the bot's store ([bot_data]), of the pruning of
    past streams ([clean_old_streams]), of the daily announcer
    ([daily_schedule_announcer]) and of the command handler ([on_message]),
    with the properties the specification states about them.

    The handlers of [main.py] work on one global dictionary, write it to
    [schedule.json], print to the console, read the wall clock and talk to
    Discord.  All of that is threaded through an explicit [world]; the
    handlers are computations in a state monad over it. *)

From Stdlib Require Import ZArith String Ascii Sorted.
From stdpp Require Import base option list gmap strings pretty.

Local Open Scope Z_scope.

(** ** Data model *)

(** One entry of [bot_data["streams"]]: the three string fields of the
    persisted snapshot. *)
Record stream := Stream {
  datetime : string;
  original_timezone : string;
  description : string
}.

#[global] Instance stream_eq_dec : EqDecision stream.
Proof. solve_decision. Defined.

(** The dictionary [bot_data].  [announcement_channel_id] and
    [last_announced_date_utc] are [None] for JSON [null]. *)
Record data := Data {
  streams : list stream;
  user_timezones : gmap string string;
  announcement_channel_id : option Z;
  last_announced_date_utc : option string
}.

(** The exceptions the stream loops catch. *)
Inductive exn := ValueError | UnknownTimeZoneError.

(** What [channel.send] does: it delivers, raises [discord.Forbidden], or
    raises some other exception. *)
Inductive send_result := Delivered | Forbidden | TransportError.

(** A line of an upcoming listing: [(unix_timestamp, description)]. *)
Definition entry : Type := Z * string.

(** The texts the bot sends, by the place in [main.py] that builds them;
    the listings carry the [(unix_timestamp, description)] pairs they are
    rendered from, in the order of their lines. *)
Inductive message :=
| NoUpcomingNotice
| DailyScheduleUpdate (lines : list entry)
| UpcomingSchedule (lines : list entry)
| TimezoneUsage
| TimezoneSet (tz : string)
| TimezoneInvalid (tz : string)
| AddStreamUsage
| StreamAdded (s : stream)
| InvalidDateTimeFormat
| InvalidOriginalTimezone (tz : string)
| RemoveStreamUsage
| RemovedStream (s : stream)
| InvalidStreamIndex
| NoStreamsStored
| AllStoredStreams (rows : list (nat * stream))
| AnnounceChannelUsage
| AnnounceChannelSet (id : Z)
| AnnounceChannelNotFound (id : Z)
| UnknownCommand (command : string).

(** The lines the bot prints. *)
Inductive log_line :=
| WarnCleanupSkipped (s : stream) (e : exn)
| CleanedUp (removed : nat)
| NoOldStreams
| NoAnnouncementChannel
| AlreadyAnnounced (today : string)
| ChannelNotFound (id : Z)
| SkipMalformedAnnouncement (s : stream)
| SkipUnknownTimezoneAnnouncement (s : stream)
| SkipMalformed (s : stream)
| SkipUnknownTimezone (s : stream)
| NoSendPermission (id : Z)
| SendErrorLogged (id : Z).

(** Where a message goes: to the announcement channel of that id, or back
    to the channel a command came from. *)
Inductive target := ToChannel (id : Z) | Reply.

(** Everything the handlers read and write.  [schedule_file] is what
    [schedule.json] holds ([None] until the first [save_data]), [saves]
    counts the calls of [save_data], [console] and [sent] grow at the end,
    [clock_reads] counts the calls of [datetime.now]. *)
Record world := World {
  bot_data : data;
  schedule_file : option data;
  saves : nat;
  console : list log_line;
  sent : list (target * message);
  clock_reads : nat
}.

(** What Discord and the wall clock answer during one handler run:
    [clock i] is the reading of the [i]-th call of [datetime.now(pytz.utc)],
    in microseconds since the epoch; [get_channel] is
    [client.get_channel], giving whether the channel found is a
    [discord.TextChannel]; [channel_send] is the fate of a
    [channel.send]. *)
Record env := Env {
  clock : nat -> Z;
  get_channel : Z -> option bool;
  channel_send : Z -> message -> send_result
}.

(** ** The state monad of the handlers *)

Definition M (A : Type) : Type := world -> A * world.

#[global] Instance M_ret : MRet M := fun A a w => (a, w).
#[global] Instance M_bind : MBind M :=
  fun A B f m w => let '(a, w') := m w in f a w'.

Definition get_data : M data := fun w => (bot_data w, w).

Definition set_data (d : data) : M unit := fun w =>
  (tt, World d (schedule_file w) (saves w) (console w) (sent w) (clock_reads w)).

(** [save_data(bot_data)]. *)
Definition save_data : M unit := fun w =>
  (tt, World (bot_data w) (Some (bot_data w)) (S (saves w)) (console w)
             (sent w) (clock_reads w)).

Definition print (l : log_line) : M unit := fun w =>
  (tt, World (bot_data w) (schedule_file w) (saves w) (console w ++ [l])
             (sent w) (clock_reads w)).

(** [datetime.now(pytz.utc)]. *)
Definition datetime_now (e : env) : M Z := fun w =>
  (clock e (clock_reads w),
   World (bot_data w) (schedule_file w) (saves w) (console w) (sent w)
         (S (clock_reads w))).

(** A send that went through. *)
Definition deliver (t : target) (m : message) : M unit := fun w =>
  (tt, World (bot_data w) (schedule_file w) (saves w) (console w)
             (sent w ++ [(t, m)]) (clock_reads w)).

(** Record updates of [bot_data]. *)
Definition with_streams (l : list stream) (d : data) : data :=
  Data l (user_timezones d) (announcement_channel_id d)
       (last_announced_date_utc d).

Definition with_user_timezones (m : gmap string string) (d : data) : data :=
  Data (streams d) m (announcement_channel_id d) (last_announced_date_utc d).

Definition with_announcement_channel_id (c : option Z) (d : data) : data :=
  Data (streams d) (user_timezones d) c (last_announced_date_utc d).

Definition with_last_announced_date_utc (s : option string) (d : data) : data :=
  Data (streams d) (user_timezones d) (announcement_channel_id d) s.

(** ** The date and time-zone library

    [datetime] and [pytz] are not part of the repository; the bot is
    modelled over what it uses of them.  [strptime s] is
    [datetime.strptime(s, "%Y-%m-%d %H:%M")], [None] when it raises
    [ValueError]; [timezone n] is [pytz.timezone(n)], [None] when it raises
    [UnknownTimeZoneError]; [localize tz dt] is the POSIX time, in seconds,
    of [tz.localize(dt)] (whole seconds: the format has no seconds field)
    where [tz.localize] returns; the datetimes on which it raises
    [OverflowError] are given apart, see [handle_with_overflow] below;
    [utc_date now] is [str(now.date())] for a reading [now] of the clock. *)
Class DateLib := {
  NaiveDT : Type;
  TzInfo : Type;
  strptime : string -> option NaiveDT;
  timezone : string -> option TzInfo;
  localize : TzInfo -> NaiveDT -> Z;
  utc_date : Z -> string
}.

(** ** Strings of the command line

    Command texts are taken as byte strings; the functions below are
    Python's on ASCII text ([ascii_text] below).  On other text Python's
    [isdigit] and [int] also know the digits of other scripts, and
    [int] can raise; what is stated of the arguments a command reads
    with them is stated of ASCII arguments. *)

(** [s.startswith('!')]. *)
Definition starts_with_bang (s : string) : bool :=
  match s with
  | String c _ => bool_decide (c = "!"%char)
  | EmptyString => false
  end.

(** [s[1:]]. *)
Definition drop_first (s : string) : string :=
  match s with
  | String _ r => r
  | EmptyString => EmptyString
  end.

(** [s.split(' ')]: at every single space, empty pieces kept. *)
Fixpoint split_space (s : string) : list string :=
  match s with
  | EmptyString => [EmptyString]
  | String c r =>
      if bool_decide (c = " "%char) then EmptyString :: split_space r
      else match split_space r with
           | p :: ps => String c p :: ps
           | [] => [String c EmptyString]
           end
  end.

Definition lower_char (c : ascii) : ascii :=
  let n := nat_of_ascii c in
  if ((65 <=? n) && (n <=? 90))%nat then ascii_of_nat (n + 32) else c.

(** [s.lower()]. *)
Fixpoint lower (s : string) : string :=
  match s with
  | EmptyString => EmptyString
  | String c r => String (lower_char c) (lower r)
  end.

Definition is_digit_char (c : ascii) : bool :=
  let n := nat_of_ascii c in ((48 <=? n) && (n <=? 57))%nat.

Fixpoint all_digits (s : string) : bool :=
  match s with
  | EmptyString => true
  | String c r => is_digit_char c && all_digits r
  end.

(** [s.isdigit()]. *)
Definition isdigit (s : string) : bool :=
  match s with
  | EmptyString => false
  | _ => all_digits s
  end.

Fixpoint int_go (acc : Z) (s : string) : Z :=
  match s with
  | EmptyString => acc
  | String c r => int_go (10 * acc + (Z.of_nat (nat_of_ascii c) - 48)) r
  end.

(** [int(s)] for an [s] that passed [isdigit]. *)
Definition int (s : string) : Z := int_go 0 s.

(** [" ".join(l)]. *)
Fixpoint join_space (l : list string) : string :=
  match l with
  | [] => EmptyString
  | [x] => x
  | x :: r => x +:+ " " +:+ join_space r
  end.

(** ** The stream loops *)

Section Handlers.
Context {L : DateLib}.

(** The three statements every stream loop starts with: parse the
    datetime, look the zone up, localize.  The result is the stream's
    instant in seconds, or the exception raised. *)
Definition stream_dt_localized (s : stream) : exn + Z :=
  match strptime (datetime s) with
  | None => inl ValueError
  | Some naive =>
      match timezone (original_timezone s) with
      | None => inl UnknownTimeZoneError
      | Some tz => inr (localize tz naive)
      end
  end.

(** [stream_dt_localized > now_utc], the stream in seconds and the clock
    in microseconds. *)
Definition after_now (t now_utc : Z) : bool := now_utc <? t * 1000000.

(** The [for] loop of [clean_old_streams], with its two accumulators. *)
Fixpoint clean_loop (now_utc : Z) (l : list stream)
    (updated_streams : list stream) (removed_count : nat)
    : M (list stream * nat) :=
  match l with
  | [] => mret (updated_streams, removed_count)
  | s :: rest =>
      match stream_dt_localized s with
      | inr t =>
          if after_now t now_utc
          then clean_loop now_utc rest (updated_streams ++ [s]) removed_count
          else clean_loop now_utc rest updated_streams (S removed_count)
      | inl e =>
          print (WarnCleanupSkipped s e);;
          clean_loop now_utc rest (updated_streams ++ [s]) removed_count
      end
  end.

Definition clean_old_streams (e : env) : M unit :=
  now_utc ← datetime_now e;
  d ← get_data;
  '(updated_streams, removed_count) ← clean_loop now_utc (streams d) [] 0%nat;
  if (0 <? removed_count)%nat then
    d ← get_data;
    set_data (with_streams updated_streams d);;
    save_data;;
    print (CleanedUp removed_count)
  else
    print NoOldStreams.

(** The loop that collects [upcoming_streams].  [main.py] has it twice,
    in the announcer and in the [schedule] command; the copies differ in
    the two lines they print, given here as [malformed] and
    [unknown_tz].  [int(stream_dt_localized.timestamp())] is the instant
    in seconds. *)
Fixpoint upcoming_loop (malformed unknown_tz : stream -> log_line)
    (now_utc : Z) (l : list stream) (upcoming_streams : list entry)
    : M (list entry) :=
  match l with
  | [] => mret upcoming_streams
  | s :: rest =>
      match stream_dt_localized s with
      | inr t =>
          if after_now t now_utc
          then upcoming_loop malformed unknown_tz now_utc rest
                 (upcoming_streams ++ [(t, description s)])
          else upcoming_loop malformed unknown_tz now_utc rest upcoming_streams
      | inl ValueError =>
          print (malformed s);;
          upcoming_loop malformed unknown_tz now_utc rest upcoming_streams
      | inl UnknownTimeZoneError =>
          print (unknown_tz s);;
          upcoming_loop malformed unknown_tz now_utc rest upcoming_streams
      end
  end.

(** [upcoming_streams.sort(key=lambda x: x[0])].  Python's sort is
    stable, and a list has one stable ordering by a key, so the sort is
    given as the insertion of each entry, from the last to the first,
    before the first entry with a timestamp that is not smaller. *)
Fixpoint insert_entry (x : entry) (l : list entry) : list entry :=
  match l with
  | [] => [x]
  | y :: r => if x.1 <=? y.1 then x :: y :: r else y :: insert_entry x r
  end.

Definition sort_by_timestamp (l : list entry) : list entry :=
  foldr insert_entry [] l.

(** ** [daily_schedule_announcer] *)

(** How a run of the announcer ends: the three ends the specification
    names, by the [return] taken, or an exception of [channel.send] that
    leaves the function. *)
Inductive outcome := Announced | Suppressed | Skipped | Raised (r : send_result).

Definition set_last_announced (today_utc : string) : M unit :=
  d ← get_data;
  set_data (with_last_announced_date_utc (Some today_utc) d).

Definition daily_schedule_announcer (e : env) : M outcome :=
  clean_old_streams e;;
  d ← get_data;
  match announcement_channel_id d with
  | None => print NoAnnouncementChannel;; mret Skipped
  | Some channel_id =>
      if channel_id =? 0 then print NoAnnouncementChannel;; mret Skipped
      else
        today ← datetime_now e;
        let today_utc := utc_date today in
        d ← get_data;
        if bool_decide (last_announced_date_utc d = Some today_utc) then
          print (AlreadyAnnounced today_utc);; mret Suppressed
        else
          match get_channel e channel_id with
          | None => print (ChannelNotFound channel_id);; mret Skipped
          | Some _ =>
              now_utc ← datetime_now e;
              d ← get_data;
              upcoming_streams ←
                upcoming_loop SkipMalformedAnnouncement
                  SkipUnknownTimezoneAnnouncement now_utc (streams d) [];
              match upcoming_streams with
              | [] =>
                  match channel_send e channel_id NoUpcomingNotice with
                  | Delivered =>
                      deliver (ToChannel channel_id) NoUpcomingNotice;;
                      set_last_announced today_utc;;
                      save_data;;
                      mret Announced
                  | r => mret (Raised r)
                  end
              | _ =>
                  let text :=
                    DailyScheduleUpdate (sort_by_timestamp upcoming_streams) in
                  match channel_send e channel_id text with
                  | Delivered =>
                      deliver (ToChannel channel_id) text;;
                      set_last_announced today_utc;;
                      save_data;;
                      mret Announced
                  | Forbidden =>
                      print (NoSendPermission channel_id);; mret Skipped
                  | TransportError =>
                      print (SendErrorLogged channel_id);; mret Skipped
                  end
              end
          end
  end.

(** ** The commands *)

(** [set_user_timezone(user_id, timezone_name)]. *)
Definition set_user_timezone (user_id : Z) (timezone_name : string) : M bool :=
  match timezone timezone_name with
  | Some _ =>
      d ← get_data;
      set_data (with_user_timezones
                  (<[pretty user_id := timezone_name]> (user_timezones d)) d);;
      save_data;;
      mret true
  | None => mret false
  end.

(** [get_user_timezone(user_id)]. *)
Definition get_user_timezone (user_id : Z) : M string :=
  d ← get_data;
  mret (default "UTC"%string (user_timezones d !! pretty user_id)).

(** [message.channel.send(text)]: the answer to a command. *)
Definition reply (text : message) : M unit := deliver Reply text.

Definition cmd_settimezone (author : Z) (args : list string) : M unit :=
  match args with
  | [] => reply TimezoneUsage
  | timezone_name :: _ =>
      ok ← set_user_timezone author timezone_name;
      if (ok : bool) then reply (TimezoneSet timezone_name)
      else reply (TimezoneInvalid timezone_name)
  end.

Definition cmd_schedule (e : env) : M unit :=
  clean_old_streams e;;
  now_utc ← datetime_now e;
  d ← get_data;
  upcoming_streams ←
    upcoming_loop SkipMalformed SkipUnknownTimezone now_utc (streams d) [];
  match upcoming_streams with
  | [] => reply NoUpcomingNotice
  | _ => reply (UpcomingSchedule (sort_by_timestamp upcoming_streams))
  end.

Definition cmd_addstream (args : list string) : M unit :=
  match args with
  | a0 :: a1 :: original_tz_name :: rest =>
      let datetime_str := a0 +:+ " " +:+ a1 in
      let description := join_space rest in
      match strptime datetime_str with
      | None => reply InvalidDateTimeFormat
      | Some _ =>
          match timezone original_tz_name with
          | None => reply (InvalidOriginalTimezone original_tz_name)
          | Some _ =>
              let new_stream := Stream datetime_str original_tz_name description in
              d ← get_data;
              set_data (with_streams (streams d ++ [new_stream]) d);;
              save_data;;
              reply (StreamAdded new_stream)
          end
      end
  | _ => reply AddStreamUsage
  end.

(** Lines 328 to 337: the removal, once the index is read.  [pop] finds
    a stream at every index the test lets through, so the [None] branch
    is never taken. *)
Definition remove_stream_at (index_to_remove : Z) : M unit :=
  d ← get_data;
  if (0 <=? index_to_remove) && (index_to_remove <? Z.of_nat (length (streams d)))
  then
    match streams d !! Z.to_nat index_to_remove with
    | Some removed_stream =>
        set_data (with_streams (delete (Z.to_nat index_to_remove) (streams d)) d);;
        save_data;;
        reply (RemovedStream removed_stream)
    | None => mret tt
    end
  else reply InvalidStreamIndex.

Definition cmd_removestream (e : env) (args : list string) : M unit :=
  clean_old_streams e;;
  match args with
  | [] => reply RemoveStreamUsage
  | a0 :: _ =>
      if isdigit a0 then remove_stream_at (int a0)
      else reply RemoveStreamUsage
  end.

Definition cmd_liststreams (e : env) : M unit :=
  clean_old_streams e;;
  d ← get_data;
  match streams d with
  | [] => reply NoStreamsStored
  | _ => reply (AllStoredStreams (imap (fun i s => (i, s)) (streams d)))
  end.

Definition cmd_setannouncechannel (e : env) (args : list string) : M unit :=
  match args with
  | [] => reply AnnounceChannelUsage
  | a0 :: _ =>
      if isdigit a0 then
        let channel_id := int a0 in
        match get_channel e channel_id with
        | Some true =>
            d ← get_data;
            set_data (with_announcement_channel_id (Some channel_id) d);;
            save_data;;
            reply (AnnounceChannelSet channel_id)
        | _ => reply (AnnounceChannelNotFound channel_id)
        end
      else reply AnnounceChannelUsage
  end.

(** ** [on_message] and the life of the process *)

(** What [on_message] reads of a message: the author's id, whether the
    author is the bot itself, and the text. *)
Record incoming := Incoming {
  author_id : Z;
  from_self : bool;
  content : string
}.

Definition on_message (BOT_OWNER_ID : Z) (e : env) (m : incoming) : M unit :=
  if from_self m then mret tt
  else if negb (starts_with_bang (content m)) then mret tt
  else
    match split_space (drop_first (content m)) with
    | [] => mret tt
    | c :: args =>
        let command := lower c in
        if bool_decide (command = "settimezone"%string) then
          cmd_settimezone (author_id m) args
        else if bool_decide (command = "schedule"%string) then
          cmd_schedule e
        else if author_id m =? BOT_OWNER_ID then
          if bool_decide (command = "addstream"%string) then cmd_addstream args
          else if bool_decide (command = "removestream"%string) then
            cmd_removestream e args
          else if bool_decide (command = "liststreams"%string) then
            cmd_liststreams e
          else if bool_decide (command = "setannouncechannel"%string) then
            cmd_setannouncechannel e args
          else mret tt
        else reply (UnknownCommand command)
    end.

(** What happens to the process: Discord reports it ready ([on_ready]
    prunes), the daily timer fires, a message arrives.  A history may go
    on after a run of the announcer that an exception left; whether the
    timer of [discord.ext.tasks] fires again then is not decided here. *)
Inductive event := Ready | Trigger | Message (m : incoming).

Definition handle (BOT_OWNER_ID : Z) (e : env) (ev : event) : M unit :=
  match ev with
  | Ready => clean_old_streams e
  | Trigger => daily_schedule_announcer e;; mret tt
  | Message m => on_message BOT_OWNER_ID e m
  end.

(** A history: each event with what the clock and Discord answer during
    its handler. *)
Fixpoint run (BOT_OWNER_ID : Z) (history : list (env * event)) (w : world)
    : world :=
  match history with
  | [] => w
  | (e, ev) :: rest => run BOT_OWNER_ID rest (handle BOT_OWNER_ID e ev w).2
  end.

(** The date a handler announces for, when it is a run of the announcer
    that ends with the announcement sent; and the dates a history
    announces for, in order. *)
Definition announced_today (e : env) (ev : event) (w : world) : option string :=
  match ev with
  | Trigger =>
      match (daily_schedule_announcer e w).1 with
      | Announced => Some (utc_date (clock e (S (clock_reads w))))
      | _ => None
      end
  | _ => None
  end.

Fixpoint announced_dates (BOT_OWNER_ID : Z) (history : list (env * event))
    (w : world) : list string :=
  match history with
  | [] => []
  | (e, ev) :: rest =>
      let later := announced_dates BOT_OWNER_ID rest (handle BOT_OWNER_ID e ev w).2 in
      match announced_today e ev w with
      | Some today => today :: later
      | None => later
      end
  end.

End Handlers.

(** ** The specification's curator, in its own words

    Section 4.3 of the specification describes the pruning and the
    upcoming view event by event; these definitions follow that text, and
    the theorems below compare the loops of [main.py] with them. *)

Section Curator.
Context {L : DateLib}.

(** "If the resulting instant is [<= now], drop it". *)
Definition expired (now : Z) (s : stream) : Prop :=
  match stream_dt_localized s with
  | inr t => t * 1000000 <= now
  | inl _ => False
  end.

#[global] Instance expired_dec now s : Decision (expired now s).
Proof. unfold expired. destruct (stream_dt_localized s); apply _. Defined.

(** "If localization fails (malformed data)". *)
Definition malformed (s : stream) : Prop :=
  match stream_dt_localized s with
  | inr _ => False
  | inl _ => True
  end.

#[global] Instance malformed_dec s : Decision (malformed s).
Proof. unfold malformed. destruct (stream_dt_localized s); apply _. Defined.

(** The events [pruneExpired(store, now)] leaves. *)
Definition pruneExpired (now : Z) (l : list stream) : list stream :=
  filter (fun s => ~ expired now s) l.

(** "Entries with instant [> now] are kept; entries that fail to localize
    are skipped". *)
Definition upcoming_entry (now : Z) (s : stream) : option entry :=
  match stream_dt_localized s with
  | inr t => if bool_decide (now < t * 1000000) then Some (t, description s) else None
  | inl _ => None
  end.

(** The upcoming entries in insertion order, before the sort. *)
Definition upcoming (now : Z) (l : list stream) : list entry :=
  omap (upcoming_entry now) l.

(** The warnings of a prune, one for each event that fails to localize. *)
Definition cleanup_warnings (l : list stream) : list log_line :=
  omap (fun s => match stream_dt_localized s with
                 | inl e => Some (WarnCleanupSkipped s e)
                 | inr _ => None
                 end) l.

(** The lines a listing prints, one for each event it skips. *)
Definition skip_lines (on_value on_zone : stream -> log_line) (l : list stream)
    : list log_line :=
  omap (fun s => match stream_dt_localized s with
                 | inl ValueError => Some (on_value s)
                 | inl UnknownTimeZoneError => Some (on_zone s)
                 | inr _ => None
                 end) l.

(** "Sorted ascending by instant". *)
Definition by_timestamp (a b : entry) : Prop := a.1 <= b.1.

(** The text of the daily announcement for the entries collected. *)
Definition announcement_text (upcoming_streams : list entry) : message :=
  match upcoming_streams with
  | [] => NoUpcomingNotice
  | _ => DailyScheduleUpdate (sort_by_timestamp upcoming_streams)
  end.

(** The answer of the [schedule] command for the entries collected. *)
Definition schedule_text (upcoming_streams : list entry) : message :=
  match upcoming_streams with
  | [] => NoUpcomingNotice
  | _ => UpcomingSchedule (sort_by_timestamp upcoming_streams)
  end.

(** The announcements among the messages sent. *)
Definition is_announcement (x : target * message) : Prop :=
  match x.1 with ToChannel _ => True | Reply => False end.

#[global] Instance is_announcement_dec x : Decision (is_announcement x).
Proof. unfold is_announcement. destruct (x.1); apply _. Defined.

Definition announcements (w : world) : list (target * message) :=
  filter is_announcement (sent w).

(** What a handler that is not an announcement leaves alone: the date of
    the last announcement and the announcements sent; and the streams it
    may add are none that fail to localize. *)
Definition store_frame (w w' : world) : Prop :=
  last_announced_date_utc (bot_data w') = last_announced_date_utc (bot_data w) /\
  announcements w' = announcements w /\
  (forall s, s ∈ streams (bot_data w') ->
             s ∈ streams (bot_data w) \/ ~ malformed s).

(** Every clock reading of the history falls on [day]. *)
Definition same_day (day : string) (history : list (env * event)) : Prop :=
  Forall (fun x => forall i, utc_date (clock x.1 i) = day) history.

End Curator.

(** ** A small date library to run the handlers on

    An instance of [DateLib] for the examples: datetimes in the
    zero-padded form [YYYY-MM-DD HH:MM] of the proleptic Gregorian
    calendar, as seconds of wall-clock time since 1970-01-01 00:00; three
    zones of fixed offset, as their offset from UTC in seconds. *)
Module Sample.

Definition digit (c : ascii) : option Z :=
  if is_digit_char c then Some (Z.of_nat (nat_of_ascii c) - 48) else None.

Definition is_leap (y : Z) : bool :=
  (y mod 4 =? 0) && (negb (y mod 100 =? 0) || (y mod 400 =? 0)).

Definition days_in_month (y m : Z) : Z :=
  if m =? 2 then (if is_leap y then 29 else 28)
  else if (m =? 4) || (m =? 6) || (m =? 9) || (m =? 11) then 30
  else 31.

(** Days from 1970-01-01 to the given date. *)
Definition days_from_civil (y m d : Z) : Z :=
  let y' := if m <=? 2 then y - 1 else y in
  let era := y' / 400 in
  let yoe := y' - era * 400 in
  let doy := (153 * (if 2 <? m then m - 3 else m + 9) + 2) / 5 + d - 1 in
  let doe := yoe * 365 + yoe / 4 - yoe / 100 + doy in
  era * 146097 + doe - 719468.

(** The date that many days after 1970-01-01. *)
Definition civil_from_days (z : Z) : Z * Z * Z :=
  let z := z + 719468 in
  let era := z / 146097 in
  let doe := z - era * 146097 in
  let yoe := (doe - doe / 1460 + doe / 36524 - doe / 146096) / 365 in
  let doy := doe - (365 * yoe + yoe / 4 - yoe / 100) in
  let mp := (5 * doy + 2) / 153 in
  let d := doy - (153 * mp + 2) / 5 + 1 in
  let m := if mp <? 10 then mp + 3 else mp - 9 in
  let y := yoe + era * 400 in
  ((if m <=? 2 then y + 1 else y), m, d).

Definition sample_strptime (s : string) : option Z :=
  match String.list_ascii_of_string s with
  | [y1; y2; y3; y4; "-"%char; m1; m2; "-"%char; d1; d2; " "%char;
     h1; h2; ":"%char; n1; n2] =>
      y1 ← digit y1; y2 ← digit y2; y3 ← digit y3; y4 ← digit y4;
      m1 ← digit m1; m2 ← digit m2; d1 ← digit d1; d2 ← digit d2;
      h1 ← digit h1; h2 ← digit h2; n1 ← digit n1; n2 ← digit n2;
      let y := 1000 * y1 + 100 * y2 + 10 * y3 + y4 in
      let m := 10 * m1 + m2 in
      let d := 10 * d1 + d2 in
      let h := 10 * h1 + h2 in
      let n := 10 * n1 + n2 in
      if (1 <=? y) && (1 <=? m) && (m <=? 12) && (1 <=? d)
         && (d <=? days_in_month y m) && (h <=? 23) && (n <=? 59)
      then Some (days_from_civil y m d * 86400 + h * 3600 + n * 60)
      else None
  | _ => None
  end.

Definition sample_timezone (name : string) : option Z :=
  if bool_decide (name = "UTC"%string) then Some 0
  else if bool_decide (name = "Etc/GMT+5"%string) then Some (-18000)
  else if bool_decide (name = "Etc/GMT-9"%string) then Some 32400
  else None.

Definition sample_localize (offset naive : Z) : Z := naive - offset.

Definition pad2 (n : Z) : string :=
  if n <? 10 then "0" +:+ pretty n else pretty n.

Definition pad4 (n : Z) : string :=
  if n <? 10 then "000" +:+ pretty n
  else if n <? 100 then "00" +:+ pretty n
  else if n <? 1000 then "0" +:+ pretty n
  else pretty n.

Definition sample_utc_date (now : Z) : string :=
  let '(y, m, d) := civil_from_days (now / 86400000000) in
  pad4 y +:+ "-" +:+ pad2 m +:+ "-" +:+ pad2 d.

Definition lib : DateLib := {|
  NaiveDT := Z;
  TzInfo := Z;
  strptime := sample_strptime;
  timezone := sample_timezone;
  localize := sample_localize;
  utc_date := sample_utc_date
|}.

(** A library in which [localize] overflows on the last day of the year
    9999 outside UTC, and an event there. *)
Definition sample_overflows (offset naive : Z) : bool :=
  (253402214400 <=? naive) && negb (offset =? 0).

Definition far : stream := Stream "9999-12-31 23:59" "Etc/GMT+5" "Far".

(** Worlds and environments of the examples. *)
Definition empty_data : data := Data [] ∅ None None.

Definition fresh (d : data) : world := World d None 0 [] [] 0.

(** The event of the specification's example, and one that no
    [strptime] accepts. *)
Definition launch : stream := Stream "2030-01-01 10:00" "UTC" "Launch".

Definition broken : stream := Stream "next friday" "UTC" "Fix me".

(** An event at the instant of [launch], entered in another zone, and
    one an evening earlier. *)
Definition tie : stream := Stream "2030-01-01 05:00" "Etc/GMT+5" "Tie".

Definition eve : stream := Stream "2029-12-31 23:00" "UTC" "Eve".

(** Clock readings, in microseconds: the starts of 2029-12-31 and of
    2030-06-01, and the instants a tenth of a second before and a
    microsecond after [launch]. *)
Definition at_2029_12_31 : Z := 1893369600000000.
Definition at_2030_06_01 : Z := 1906502400000000.
Definition just_before_launch : Z := 1893491999900000.
Definition just_after_launch : Z := 1893492000000001.

(** Discord with the one text channel 42, where every send has the
    result [r]; the clock stands at [now]. *)
Definition discord (now : Z) (r : send_result) : env :=
  Env (fun _ => now) (fun id => if id =? 42 then Some true else None)
      (fun _ _ => r).

(** The same with a clock that passes [launch] between its second and
    its third reading. *)
Definition discord_ticking : env :=
  Env (fun i => if (i <? 2)%nat then just_before_launch else just_after_launch)
      (fun id => if id =? 42 then Some true else None)
      (fun _ _ => Delivered).

End Sample.

(** ** [load_data]

    What [schedule.json] holds when the process starts: nothing, text
    that [json.load] rejects, or an object.  Of an object, the four keys
    of the snapshot are looked at, each present or absent; a key that is
    present holds a value of the snapshot's type ([None] for [null]). *)
Record json_data := JsonData {
  json_streams : option (list stream);
  json_user_timezones : option (gmap string string);
  json_announcement_channel_id : option (option Z);
  json_last_announced_date_utc : option (option string)
}.

Inductive schedule_json :=
| FileMissing
| FileMalformed
| FileDict (j : json_data).

(** The dictionary of lines 40 and 52. *)
Definition empty_json : json_data :=
  JsonData (Some []) (Some ∅) (Some None) (Some None).

(** [load_data()]: the dictionary it returns, and whether it printed the
    warning about a malformed file. *)
Definition load_data (f : schedule_json) : json_data * bool :=
  match f with
  | FileMissing => (empty_json, false)
  | FileMalformed => (empty_json, true)
  | FileDict j =>
      (JsonData (json_streams j) (json_user_timezones j)
         (match json_announcement_channel_id j with
          | None => Some None
          | Some c => Some c
          end)
         (match json_last_announced_date_utc j with
          | None => Some None
          | Some d => Some d
          end),
       false)
  end.

(** The object [json.dump(bot_data, f)] writes, read back. *)
Definition json_of_data (d : data) : json_data :=
  JsonData (Some (streams d)) (Some (user_timezones d))
           (Some (announcement_channel_id d))
           (Some (last_announced_date_utc d)).

(** A dictionary with all four keys, as the handlers use it. *)
Definition data_of_json (j : json_data) : option data :=
  l ← json_streams j;
  u ← json_user_timezones j;
  c ← json_announcement_channel_id j;
  d ← json_last_announced_date_utc j;
  Some (Data l u c d).

(** A handler run that leaves no change of [bot_data] unsaved: it has
    touched neither [bot_data] nor the file, or the file holds the
    [bot_data] it leaves. *)
Definition saved_step (w w' : world) : Prop :=
  (bot_data w' = bot_data w /\ schedule_file w' = schedule_file w /\
   saves w' = saves w) \/
  (schedule_file w' = Some (bot_data w') /\ (saves w < saves w')%nat).

(** A string without a space. *)
Fixpoint no_space (s : string) : Prop :=
  match s with
  | EmptyString => True
  | String c r => c <> " "%char /\ no_space r
  end.

(** A text of ASCII characters. *)
Fixpoint ascii_text (s : string) : Prop :=
  match s with
  | EmptyString => True
  | String c r => (nat_of_ascii c < 128)%nat /\ ascii_text r
  end.

(** ** [OverflowError] in [tz.localize]

    [tz.localize] raises [OverflowError] on some datetimes [strptime]
    accepts, at the ends of the range of [datetime].  No handler catches
    it.  It can only come up in the loop of [clean_old_streams], with
    which [on_ready], the announcer and the commands [schedule],
    [removestream] and [liststreams] start: a listing loop runs on streams
    the prune has got through.  [overflows tz dt] tells where
    [tz.localize(dt)] raises. *)
Section Overflow.
Context {L : DateLib}.
Variable overflows : TzInfo -> NaiveDT -> bool.

(** The stream on which the loop raises: the datetime parses, the zone
    is known, and [tz.localize] overflows. *)
Definition localize_raises (s : stream) : bool :=
  match strptime (datetime s) with
  | None => false
  | Some naive =>
      match timezone (original_timezone s) with
      | None => false
      | Some tz => overflows tz naive
      end
  end.

(** The streams the loop gets through before it raises. *)
Fixpoint before_overflow (l : list stream) : list stream :=
  match l with
  | [] => []
  | s :: rest => if localize_raises s then [] else s :: before_overflow rest
  end.

(** The handlers that start with [clean_old_streams()], by the dispatch
    of [on_message]. *)
Definition starts_with_prune (BOT_OWNER_ID : Z) (ev : event) : bool :=
  match ev with
  | Ready => true
  | Trigger => true
  | Message m =>
      if from_self m then false
      else if negb (starts_with_bang (content m)) then false
      else
        match split_space (drop_first (content m)) with
        | [] => false
        | c :: _ =>
            let command := lower c in
            if bool_decide (command = "settimezone"%string) then false
            else if bool_decide (command = "schedule"%string) then true
            else if author_id m =? BOT_OWNER_ID then
              if bool_decide (command = "addstream"%string) then false
              else if bool_decide (command = "removestream"%string) then true
              else bool_decide (command = "liststreams"%string)
            else false
        end
  end.

(** The world the exception leaves: the prune has read the clock and
    printed its warnings for the streams before the one that raises;
    nothing is assigned, saved or sent. *)
Definition overflow_abort (w : world) : world :=
  World (bot_data w) (schedule_file w) (saves w)
        (console w ++ cleanup_warnings (before_overflow (streams (bot_data w))))
        (sent w) (S (clock_reads w)).

(** A handler with the exception: when it starts with a prune and some
    stream of the store makes [tz.localize] raise, the exception leaves
    it; otherwise it runs as [handle] has it, and [localize] is only
    asked where [tz.localize] returns. *)
Definition handle_with_overflow (BOT_OWNER_ID : Z) (e : env) (ev : event)
    (w : world) : world :=
  if starts_with_prune BOT_OWNER_ID ev
     && existsb localize_raises (streams (bot_data w))
  then overflow_abort w
  else (handle BOT_OWNER_ID e ev w).2.

Fixpoint run_with_overflow (BOT_OWNER_ID : Z) (history : list (env * event))
    (w : world) : world :=
  match history with
  | [] => w
  | (e, ev) :: rest =>
      run_with_overflow BOT_OWNER_ID rest
        (handle_with_overflow BOT_OWNER_ID e ev w)
  end.

End Overflow.

(** * Properties *)

(** Unfolding the monad. *)
Ltac run_m :=
  unfold mbind, M_bind, mret, M_ret, get_data, set_data, save_data, print,
    datetime_now, deliver; cbn [fst snd bot_data schedule_file saves console
    sent clock_reads].

Section Properties.
Context {L : DateLib}.

(** ** The loops against the specification's curator *)

Lemma expired_inr now s t :
  stream_dt_localized s = inr t -> expired now s <-> t * 1000000 <= now.
Proof. unfold expired. intros ->. reflexivity. Qed.

Lemma expired_inl now s e : stream_dt_localized s = inl e -> ~ expired now s.
Proof. unfold expired. intros ->. tauto. Qed.

Lemma after_now_true t now : after_now t now = true <-> now < t * 1000000.
Proof. unfold after_now. apply Z.ltb_lt. Qed.

Lemma after_now_false t now : after_now t now = false <-> t * 1000000 <= now.
Proof. unfold after_now. rewrite Z.ltb_ge. reflexivity. Qed.

Lemma clean_loop_spec now l : forall updated removed w,
  clean_loop now l updated removed w =
  ((updated ++ pruneExpired now l,
    (removed + length (filter (expired now) l))%nat),
   World (bot_data w) (schedule_file w) (saves w)
         (console w ++ cleanup_warnings l) (sent w) (clock_reads w)).
Proof.
  unfold pruneExpired, cleanup_warnings.
  induction l as [|s rest IH]; intros updated removed w.
  - cbn. run_m. rewrite !app_nil_r, Nat.add_0_r. by destruct w.
  - rewrite !filter_cons. cbn [clean_loop omap list_omap].
    destruct (stream_dt_localized s) as [ex|t] eqn:Hs.
    + run_m. rewrite IH. cbn [bot_data schedule_file saves console sent clock_reads].
      destruct (decide (~ expired now s)) as [_|n];
        [|exfalso; apply n; by eapply expired_inl].
      destruct (decide (expired now s)) as [y|_];
        [exfalso; revert y; by eapply expired_inl|].
      by rewrite <- !app_assoc.
    + pose proof (expired_inr now s t Hs) as He.
      destruct (after_now t now) eqn:Ha; rewrite IH.
      * apply after_now_true in Ha.
        destruct (decide (~ expired now s)) as [_|n]; [|exfalso; apply n; rewrite He; lia].
        destruct (decide (expired now s)) as [y|_]; [apply He in y; lia|].
        by rewrite <- app_assoc.
      * apply after_now_false in Ha.
        destruct (decide (~ expired now s)) as [n|_]; [tauto|].
        destruct (decide (expired now s)) as [_|n]; [|tauto].
        cbn [length]. by rewrite Nat.add_succ_r.
Qed.

Lemma upcoming_loop_spec on_value on_zone now l : forall acc w,
  upcoming_loop on_value on_zone now l acc w =
  (acc ++ upcoming now l,
   World (bot_data w) (schedule_file w) (saves w)
         (console w ++ skip_lines on_value on_zone l) (sent w) (clock_reads w)).
Proof.
  unfold upcoming, skip_lines.
  induction l as [|s rest IH]; intros acc w.
  - cbn. run_m. rewrite !app_nil_r. by destruct w.
  - cbn [upcoming_loop omap list_omap]. unfold upcoming_entry at 1.
    destruct (stream_dt_localized s) as [[]|t] eqn:Hs.
    + run_m. rewrite IH. cbn [bot_data schedule_file saves console sent clock_reads].
      by rewrite <- !app_assoc.
    + run_m. rewrite IH. cbn [bot_data schedule_file saves console sent clock_reads].
      by rewrite <- !app_assoc.
    + unfold after_now. destruct (Z.ltb_spec now (t * 1000000)) as [Hlt|Hge].
      * rewrite bool_decide_eq_true_2 by done. rewrite IH.
        by rewrite <- app_assoc.
      * rewrite bool_decide_eq_false_2 by lia. by rewrite IH.
Qed.

Lemma pruneExpired_none_expired now l :
  length (filter (expired now) l) = 0%nat -> pruneExpired now l = l.
Proof.
  unfold pruneExpired. induction l as [|s l IH]; [done|].
  rewrite !filter_cons.
  destruct (decide (expired now s)) as [y|n]; [done|].
  intros Hl. destruct (decide (~ expired now s)); [|tauto].
  by rewrite IH.
Qed.

(** What one call of [clean_old_streams] does to the world. *)
Lemma clean_old_streams_spec e w :
  let now := clock e (clock_reads w) in
  let l := streams (bot_data w) in
  let removed := length (filter (expired now) l) in
  clean_old_streams e w =
  (tt,
   if (0 <? removed)%nat then
     World (with_streams (pruneExpired now l) (bot_data w))
           (Some (with_streams (pruneExpired now l) (bot_data w)))
           (S (saves w))
           (console w ++ cleanup_warnings l ++ [CleanedUp removed])
           (sent w) (S (clock_reads w))
   else
     World (bot_data w) (schedule_file w) (saves w)
           (console w ++ cleanup_warnings l ++ [NoOldStreams])
           (sent w) (S (clock_reads w))).
Proof.
  intros now l removed. unfold clean_old_streams. run_m.
  rewrite clean_loop_spec. cbn [bot_data schedule_file saves console sent clock_reads].
  rewrite app_nil_l, Nat.add_0_l. fold now l removed.
  destruct (0 <? removed)%nat; run_m; by rewrite <- app_assoc.
Qed.

Lemma clean_old_streams_streams e w :
  streams (bot_data (clean_old_streams e w).2) =
  pruneExpired (clock e (clock_reads w)) (streams (bot_data w)).
Proof.
  rewrite clean_old_streams_spec. cbn [snd].
  destruct (Nat.ltb_spec 0 (length (filter (expired (clock e (clock_reads w)))
                                       (streams (bot_data w))))) as [Hl|Hl].
  - reflexivity.
  - cbn [bot_data]. symmetry. apply pruneExpired_none_expired. lia.
Qed.

(** A prune touches nothing of [bot_data] but the streams, sends nothing
    and reads the clock once. *)
Lemma clean_old_streams_frame e w :
  let w' := (clean_old_streams e w).2 in
  user_timezones (bot_data w') = user_timezones (bot_data w) /\
  announcement_channel_id (bot_data w') = announcement_channel_id (bot_data w) /\
  last_announced_date_utc (bot_data w') = last_announced_date_utc (bot_data w) /\
  sent w' = sent w /\
  clock_reads w' = S (clock_reads w).
Proof.
  cbn zeta. rewrite clean_old_streams_spec. cbn [snd].
  by destruct (_ <? _)%nat.
Qed.

(** ** The sort *)

Lemma insert_entry_perm x l : insert_entry x l ≡ₚ x :: l.
Proof.
  induction l as [|y r IH]; [done|]. cbn.
  destruct (x.1 <=? y.1); [done|].
  rewrite IH. apply Permutation_swap.
Qed.

Lemma sort_by_timestamp_perm l : sort_by_timestamp l ≡ₚ l.
Proof.
  induction l as [|x l IH]; [done|]. cbn.
  rewrite insert_entry_perm. by rewrite IH.
Qed.

Lemma insert_entry_sorted x l :
  StronglySorted by_timestamp l -> StronglySorted by_timestamp (insert_entry x l).
Proof.
  induction 1 as [|y r Hs IH Hall].
  - repeat constructor.
  - cbn. destruct (Z.leb_spec x.1 y.1) as [Hle|Hgt].
    + constructor; [by constructor|]. constructor; [done|].
      eapply Forall_impl; [exact Hall|]. unfold by_timestamp. intros; lia.
    + constructor; [done|].
      rewrite insert_entry_perm. constructor; [|done].
      unfold by_timestamp. lia.
Qed.

Lemma sort_by_timestamp_sorted l : StronglySorted by_timestamp (sort_by_timestamp l).
Proof.
  induction l as [|x l IH]; [constructor|]. cbn. by apply insert_entry_sorted.
Qed.

Lemma insert_entry_filter k x l :
  filter (fun y : entry => y.1 = k) (insert_entry x l) =
  filter (fun y : entry => y.1 = k) (x :: l).
Proof.
  induction l as [|y r IH]; [done|]. cbn [insert_entry].
  destruct (Z.leb_spec x.1 y.1) as [Hle|Hgt]; [done|].
  rewrite filter_cons, IH, !filter_cons.
  destruct (decide (y.1 = k)), (decide (x.1 = k)); try done. lia.
Qed.

Lemma sort_by_timestamp_stable k l :
  filter (fun y : entry => y.1 = k) (sort_by_timestamp l) =
  filter (fun y : entry => y.1 = k) l.
Proof.
  induction l as [|x l IH]; [done|]. cbn [sort_by_timestamp foldr].
  rewrite insert_entry_filter, !filter_cons. fold (sort_by_timestamp l).
  by rewrite IH.
Qed.

Lemma sort_by_timestamp_nil l : sort_by_timestamp l = [] -> l = [].
Proof.
  intros Hs. apply Permutation_nil. by rewrite <- Hs, sort_by_timestamp_perm.
Qed.

(** ** The prune *)

Lemma filter_length_pos {A} (P : A -> Prop) `{!forall x, Decision (P x)} (l : list A) :
  (0 < length (filter P l))%nat <-> exists x, x ∈ l /\ P x.
Proof.
  split.
  - destruct (filter P l) as [|x r] eqn:Hf; cbn; [lia|]. intros _.
    exists x. apply and_comm, (list_elem_of_filter P). rewrite Hf. left.
  - intros (x & Hin & HP).
    assert (x ∈ filter P l) as Hx by (by apply list_elem_of_filter).
    destruct (filter P l); [by apply not_elem_of_nil in Hx|cbn; lia].
Qed.

Lemma malformed_inl s : malformed s <-> exists ex, stream_dt_localized s = inl ex.
Proof.
  unfold malformed. destruct (stream_dt_localized s) as [ex|t].
  - split; eauto.
  - split; [tauto|]. by intros [ex ?].
Qed.

Lemma malformed_not_expired now s : malformed s -> ~ expired now s.
Proof. unfold malformed, expired. destruct (stream_dt_localized s); tauto. Qed.

Lemma cleanup_warnings_elem s ex l :
  s ∈ l -> stream_dt_localized s = inl ex ->
  WarnCleanupSkipped s ex ∈ cleanup_warnings l.
Proof.
  intros Hin Hs. unfold cleanup_warnings. apply list_elem_of_omap.
  exists s. by rewrite Hs.
Qed.

Lemma clean_old_streams_removes_expired_or_nothing e w :
  ~ (exists s, s ∈ streams (bot_data w) /\ expired (clock e (clock_reads w)) s) ->
  let w' := (clean_old_streams e w).2 in
  bot_data w' = bot_data w /\ schedule_file w' = schedule_file w /\
  saves w' = saves w.
Proof.
  intros Hn. cbn zeta. rewrite clean_old_streams_spec. cbn [snd].
  pose proof (filter_length_pos (expired (clock e (clock_reads w)))
                (streams (bot_data w))) as Hpos.
  destruct (Nat.ltb_spec 0 (length (filter (expired (clock e (clock_reads w)))
                                       (streams (bot_data w))))) as [Hl|Hl].
  - exfalso. apply Hn. by apply Hpos.
  - done.
Qed.

(** C2.  A prune at the clock reading [now] leaves exactly the events
    that are not expired at [now], in their order: an event is removed if
    and only if it localizes to an instant [<= now].  Every event that
    fails to localize stays in the list and a warning naming it is
    printed.  [save_data] is called, once, if and only if some event was
    removed; otherwise neither [bot_data] nor the file changes. *)
Theorem clean_old_streams_removes_exactly_expired (e : env) (w : world) :
  let now := clock e (clock_reads w) in
  let l := streams (bot_data w) in
  let w' := (clean_old_streams e w).2 in
  streams (bot_data w') = filter (fun s => ~ expired now s) l /\
  (forall s, s ∈ l -> (s ∈ streams (bot_data w') <-> ~ expired now s)) /\
  (forall s, s ∈ l -> malformed s ->
     s ∈ streams (bot_data w') /\
     exists ex, stream_dt_localized s = inl ex /\
       WarnCleanupSkipped s ex ∈ drop (length (console w)) (console w')) /\
  ((exists s, s ∈ l /\ expired now s) ->
     saves w' = S (saves w) /\ schedule_file w' = Some (bot_data w')) /\
  (~ (exists s, s ∈ l /\ expired now s) ->
     saves w' = saves w /\ schedule_file w' = schedule_file w /\
     bot_data w' = bot_data w).
Proof.
  intros now l w'.
  assert (streams (bot_data w') = pruneExpired now l) as Hstreams
    by apply clean_old_streams_streams.
  split; [exact Hstreams|].
  split.
  { intros s Hin. rewrite Hstreams. unfold pruneExpired.
    rewrite list_elem_of_filter. tauto. }
  split.
  { intros s Hin Hm. split.
    - rewrite Hstreams. apply list_elem_of_filter. split; [|done].
      by apply malformed_not_expired.
    - apply malformed_inl in Hm as [ex Hex]. exists ex. split; [done|].
      subst w'. rewrite clean_old_streams_spec. cbn [snd].
      destruct (_ <? _)%nat; cbn [console]; rewrite drop_app_length;
        apply elem_of_app; left; by apply cleanup_warnings_elem. }
  subst w'. rewrite clean_old_streams_spec. cbn [snd]. fold now l.
  pose proof (filter_length_pos (expired now) l) as Hpos.
  destruct (Nat.ltb_spec 0 (length (filter (expired now) l))) as [Hl|Hl].
  - split; [done|]. intros Hn. exfalso. apply Hn. by apply Hpos.
  - split; [|done]. intros Hex. apply Hpos in Hex. lia.
Qed.

(** C9.  Two prunes in a row at the same clock reading [now]: the second
    counts zero events to remove, and leaves [bot_data], the file and the
    number of saves as the first left them. *)
Theorem clean_old_streams_idempotent
    (now : Z) (gc : Z -> option bool) (cs : Z -> message -> send_result)
    (w : world) :
  let e := Env (fun _ => now) gc cs in
  let w1 := (clean_old_streams e w).2 in
  let w2 := (clean_old_streams e w1).2 in
  (forall w0, (clean_loop now (streams (bot_data w1)) [] 0%nat w0).1.2 = 0%nat) /\
  bot_data w2 = bot_data w1 /\
  schedule_file w2 = schedule_file w1 /\
  saves w2 = saves w1 /\
  last (console w2) = Some NoOldStreams.
Proof.
  intros e w1 w2.
  assert (length (filter (expired now) (streams (bot_data w1))) = 0%nat) as Hz.
  { subst w1. rewrite clean_old_streams_streams. cbn [clock e].
    unfold pruneExpired.
    destruct (filter _ (filter _ _)) as [|x r] eqn:Hf; [done|].
    assert (x ∈ x :: r) as Hx by left. rewrite <- Hf in Hx.
    apply list_elem_of_filter in Hx as [Hx1 Hx2].
    apply list_elem_of_filter in Hx2 as [Hx2 _]. tauto. }
  split.
  { intros w0. rewrite clean_loop_spec. cbn [fst snd]. by rewrite Hz. }
  subst w2. rewrite clean_old_streams_spec. cbn [snd clock e]. rewrite Hz.
  cbn [Nat.ltb Nat.leb bot_data schedule_file saves console].
  repeat split. by rewrite app_assoc, last_snoc.
Qed.

(** ** The [schedule] command and the announcer, path by path *)

Lemma cmd_schedule_spec e w :
  let w1 := (clean_old_streams e w).2 in
  let now := clock e (S (clock_reads w)) in
  let l := streams (bot_data w1) in
  cmd_schedule e w =
  (tt, World (bot_data w1) (schedule_file w1) (saves w1)
         (console w1 ++ skip_lines SkipMalformed SkipUnknownTimezone l)
         (sent w ++ [(Reply, schedule_text (upcoming now l))])
         (S (S (clock_reads w)))).
Proof.
  cbn zeta. unfold cmd_schedule. run_m.
  pose proof (clean_old_streams_frame e w) as (_ & _ & _ & Hs & Hr).
  destruct (clean_old_streams e w) as [[] w1]. cbn [snd] in *.
  rewrite upcoming_loop_spec, app_nil_l, Hr, Hs.
  unfold schedule_text, reply.
  by destruct (upcoming _ _); run_m.
Qed.

(** Every way a run of the announcer can go.  [w1] is the world the
    prune leaves; [today] comes from the second clock reading and the
    listing is taken at the third. *)
Lemma announcer_effect e w :
  let r := daily_schedule_announcer e w in
  let w1 := (clean_old_streams e w).2 in
  let today := utc_date (clock e (S (clock_reads w))) in
  let text :=
    announcement_text (upcoming (clock e (S (S (clock_reads w))))
                                (streams (bot_data w1))) in
  streams (bot_data r.2) = streams (bot_data w1) /\
  user_timezones (bot_data r.2) = user_timezones (bot_data w) /\
  announcement_channel_id (bot_data r.2) = announcement_channel_id (bot_data w) /\
  ((r.1 = Announced /\
    exists id, announcement_channel_id (bot_data w) = Some id /\ id <> 0 /\
      is_Some (get_channel e id) /\
      last_announced_date_utc (bot_data w) <> Some today /\
      channel_send e id text = Delivered /\
      sent r.2 = sent w ++ [(ToChannel id, text)] /\
      last_announced_date_utc (bot_data r.2) = Some today /\
      schedule_file r.2 = Some (bot_data r.2) /\
      saves r.2 = S (saves w1) /\
      clock_reads r.2 = S (S (S (clock_reads w))))
   \/
   (r.1 <> Announced /\
    sent r.2 = sent w /\
    bot_data r.2 = bot_data w1 /\
    last_announced_date_utc (bot_data r.2) = last_announced_date_utc (bot_data w) /\
    schedule_file r.2 = schedule_file w1 /\
    saves r.2 = saves w1 /\
    (S (clock_reads w) <= clock_reads r.2 <= S (S (S (clock_reads w))))%nat)).
Proof.
  cbn zeta. unfold daily_schedule_announcer. run_m.
  pose proof (clean_old_streams_frame e w) as (Hu & Hc & Hl & Hs & Hr).
  destruct (clean_old_streams e w) as [[] w1]. cbn [snd] in *.
  rewrite Hc.
  destruct (announcement_channel_id (bot_data w)) as [id|] eqn:Hid;
    [|run_m; rewrite Hl, Hr; repeat split; try done; right;
      repeat split; try done; lia].
  destruct (Z.eqb_spec id 0) as [Hz|Hnz];
    [run_m; rewrite Hl, Hr; repeat split; try done; right;
     repeat split; try done; lia|].
  run_m. rewrite Hl, Hr.
  destruct (bool_decide_reflect
              (last_announced_date_utc (bot_data w)
               = Some (utc_date (clock e (S (clock_reads w)))))) as [Heq|Hne];
    [run_m; rewrite ?Hl; repeat split; try done; right;
     repeat split; try done; lia|].
  destruct (get_channel e id) as [b|] eqn:Hg;
    [|run_m; rewrite ?Hl; repeat split; try done; right;
      repeat split; try done; lia].
  run_m. rewrite upcoming_loop_spec, app_nil_l.
  unfold announcement_text.
  destruct (upcoming _ _) as [|x u] eqn:Hup.
  - destruct (channel_send e id NoUpcomingNotice) eqn:Hsend;
      unfold set_last_announced; run_m; rewrite ?Hs, ?Hl;
      repeat split; try done.
    + left. split; [done|]. exists id. by repeat split.
    + right. repeat split; try done; lia.
    + right. repeat split; try done; lia.
  - destruct (channel_send e id _) eqn:Hsend;
      unfold set_last_announced; run_m; rewrite ?Hs, ?Hl;
      repeat split; try done.
    + left. split; [done|]. exists id. by repeat split.
    + right. repeat split; try done; lia.
    + right. repeat split; try done; lia.
Qed.

Section AnnouncerPaths.
Variables (e : env) (w : world).

Let w1 := (clean_old_streams e w).2.
Let today := utc_date (clock e (S (clock_reads w))).
Let now := clock e (S (S (clock_reads w))).
Let found := upcoming now (streams (bot_data w1)).

(** The world when the listing has been collected. *)
Let w3 :=
  World (bot_data w1) (schedule_file w1) (saves w1)
        (console w1 ++ skip_lines SkipMalformedAnnouncement
                         SkipUnknownTimezoneAnnouncement (streams (bot_data w1)))
        (sent w) (S (S (S (clock_reads w)))).

Lemma announcer_unconfigured :
  announcement_channel_id (bot_data w) = None \/
  announcement_channel_id (bot_data w) = Some 0 ->
  daily_schedule_announcer e w = (Skipped, (print NoAnnouncementChannel w1).2).
Proof.
  intros Hc. subst w1. unfold daily_schedule_announcer. run_m.
  pose proof (clean_old_streams_frame e w) as (_ & Hid & _).
  destruct (clean_old_streams e w) as [[] w1]. cbn [snd] in *.
  rewrite Hid. by destruct Hc as [-> | ->].
Qed.

Lemma announcer_suppressed id :
  announcement_channel_id (bot_data w) = Some id -> id <> 0 ->
  last_announced_date_utc (bot_data w) = Some today ->
  daily_schedule_announcer e w =
  (Suppressed, (print (AlreadyAnnounced today) (datetime_now e w1).2).2).
Proof.
  intros Hc Hnz Hlast. subst w1 today. unfold daily_schedule_announcer. run_m.
  pose proof (clean_old_streams_frame e w) as (_ & Hid & Hl & _ & Hr).
  destruct (clean_old_streams e w) as [[] w1]. cbn [snd] in *.
  rewrite Hid, Hc. destruct (Z.eqb_spec id 0) as [|_]; [done|].
  run_m. rewrite Hl, Hr, Hlast. by rewrite bool_decide_eq_true_2.
Qed.

Lemma announcer_unreachable id :
  announcement_channel_id (bot_data w) = Some id -> id <> 0 ->
  last_announced_date_utc (bot_data w) <> Some today ->
  get_channel e id = None ->
  daily_schedule_announcer e w =
  (Skipped, (print (ChannelNotFound id) (datetime_now e w1).2).2).
Proof.
  intros Hc Hnz Hlast Hg. subst w1 today. unfold daily_schedule_announcer. run_m.
  pose proof (clean_old_streams_frame e w) as (_ & Hid & Hl & _ & Hr).
  destruct (clean_old_streams e w) as [[] w1]. cbn [snd] in *.
  rewrite Hid, Hc. destruct (Z.eqb_spec id 0) as [|_]; [done|].
  run_m. rewrite Hl, Hr. rewrite bool_decide_eq_false_2 by done.
  by rewrite Hg.
Qed.

(** The run that reaches [channel.send], by what the send does. *)
Lemma announcer_delivery id b :
  announcement_channel_id (bot_data w) = Some id -> id <> 0 ->
  last_announced_date_utc (bot_data w) <> Some today ->
  get_channel e id = Some b ->
  daily_schedule_announcer e w =
  match channel_send e id (announcement_text found) with
  | Delivered =>
      (Announced,
       World (with_last_announced_date_utc (Some today) (bot_data w1))
             (Some (with_last_announced_date_utc (Some today) (bot_data w1)))
             (S (saves w1)) (console w3)
             (sent w ++ [(ToChannel id, announcement_text found)])
             (clock_reads w3))
  | Forbidden =>
      match found with
      | [] => (Raised Forbidden, w3)
      | _ => (Skipped, (print (NoSendPermission id) w3).2)
      end
  | TransportError =>
      match found with
      | [] => (Raised TransportError, w3)
      | _ => (Skipped, (print (SendErrorLogged id) w3).2)
      end
  end.
Proof.
  intros Hc Hnz Hlast Hg. subst w3 found now w1 today.
  unfold daily_schedule_announcer. run_m.
  pose proof (clean_old_streams_frame e w) as (_ & Hid & Hl & Hs & Hr).
  destruct (clean_old_streams e w) as [[] w1]. cbn [snd] in *.
  rewrite Hid, Hc. destruct (Z.eqb_spec id 0) as [|_]; [done|].
  run_m. rewrite Hl, Hr. rewrite bool_decide_eq_false_2 by done.
  rewrite Hg. run_m. rewrite upcoming_loop_spec, app_nil_l.
  cbn [bot_data schedule_file saves console sent clock_reads].
  unfold announcement_text, set_last_announced.
  destruct (upcoming _ _) as [|x u].
  - destruct (channel_send e id NoUpcomingNotice); run_m; by rewrite ?Hs.
  - destruct (channel_send e id _); run_m; by rewrite ?Hs.
Qed.

End AnnouncerPaths.

(** ** What the commands leave alone *)

Lemma store_frame_refl w : store_frame w w.
Proof. repeat split; auto. Qed.

Lemma store_frame_trans w1 w2 w3 :
  store_frame w1 w2 -> store_frame w2 w3 -> store_frame w1 w3.
Proof.
  intros (Hl1 & Ha1 & Hs1) (Hl2 & Ha2 & Hs2). repeat split; [congruence..|].
  intros s Hin. destruct (Hs2 s Hin) as [Hin2|]; auto.
Qed.

Lemma announcements_reply (l : list (target * message)) t :
  filter is_announcement (l ++ [(Reply, t)]) = filter is_announcement l.
Proof. rewrite filter_app. cbn. by rewrite app_nil_r. Qed.

Lemma reply_frame t w : store_frame w (reply t w).2.
Proof.
  unfold reply, deliver. cbn. repeat split; auto.
  unfold reply, announcements. run_m. apply announcements_reply.
Qed.

Lemma clean_old_streams_store_frame e w : store_frame w (clean_old_streams e w).2.
Proof.
  pose proof (clean_old_streams_frame e w) as (_ & _ & Hl & Hs & _).
  repeat split; [done|unfold announcements; by rewrite Hs|].
  intros s. rewrite clean_old_streams_streams. unfold pruneExpired.
  rewrite list_elem_of_filter. tauto.
Qed.

Lemma set_user_timezone_frame user name w :
  store_frame w (set_user_timezone user name w).2.
Proof.
  unfold set_user_timezone. destruct (timezone name); run_m;
    repeat split; auto.
Qed.

Lemma cmd_settimezone_frame author args w :
  store_frame w (cmd_settimezone author args w).2.
Proof.
  unfold cmd_settimezone. destruct args as [|name rest]; [apply reply_frame|].
  run_m. pose proof (set_user_timezone_frame author name w) as Hf.
  destruct (set_user_timezone author name w) as [[] w1]; cbn [snd] in Hf;
    (eapply store_frame_trans; [exact Hf|apply reply_frame]).
Qed.

Lemma cmd_schedule_frame e w : store_frame w (cmd_schedule e w).2.
Proof.
  rewrite cmd_schedule_spec. cbn [snd].
  destruct (clean_old_streams_store_frame e w) as (Hl & Ha & Hs).
  pose proof (clean_old_streams_frame e w) as (_ & _ & _ & Hsent & _).
  repeat split; [done| |done].
  unfold reply, announcements. run_m. apply announcements_reply.
Qed.

Lemma stream_dt_localized_new a0 a1 tz rest naive info :
  strptime (a0 +:+ " " +:+ a1) = Some naive -> timezone tz = Some info ->
  stream_dt_localized (Stream (a0 +:+ " " +:+ a1) tz (join_space rest))
  = inr (localize info naive).
Proof. unfold stream_dt_localized. cbn. by intros -> ->. Qed.

Lemma cmd_addstream_frame args w : store_frame w (cmd_addstream args w).2.
Proof.
  unfold cmd_addstream.
  destruct args as [|a0 [|a1 [|tz rest]]]; try apply reply_frame.
  destruct (strptime _) as [naive|] eqn:Hp; [|apply reply_frame].
  destruct (timezone tz) as [info|] eqn:Ht; [|apply reply_frame].
  run_m. split; [|split].
  - done.
  - unfold reply, announcements. run_m. apply announcements_reply.
  - cbn. intros s [Hin|Hin]%elem_of_app; [by left|].
    apply list_elem_of_singleton in Hin as ->. right.
    unfold malformed.
    rewrite (stream_dt_localized_new _ _ _ _ _ _ Hp Ht). tauto.
Qed.

Lemma remove_stream_at_frame idx w : store_frame w (remove_stream_at idx w).2.
Proof.
  unfold remove_stream_at. run_m.
  destruct (_ && _); [|apply reply_frame].
  destruct (streams (bot_data w) !! Z.to_nat idx) as [removed|] eqn:Hr;
    [|apply store_frame_refl].
  run_m. split; [|split].
  - done.
  - unfold reply, announcements. run_m. apply announcements_reply.
  - cbn. intros s Hin. left. eapply elem_of_sublist; [exact Hin|apply sublist_delete].
Qed.

Lemma cmd_removestream_frame e args w :
  store_frame w (cmd_removestream e args w).2.
Proof.
  unfold cmd_removestream. run_m.
  pose proof (clean_old_streams_store_frame e w) as Hf.
  destruct (clean_old_streams e w) as [[] w1]. cbn [snd] in Hf.
  eapply store_frame_trans; [exact Hf|].
  destruct args as [|a0 rest]; [apply reply_frame|].
  destruct (isdigit a0); [apply remove_stream_at_frame|apply reply_frame].
Qed.

Lemma cmd_liststreams_frame e w : store_frame w (cmd_liststreams e w).2.
Proof.
  unfold cmd_liststreams. run_m.
  pose proof (clean_old_streams_store_frame e w) as Hf.
  destruct (clean_old_streams e w) as [[] w1]. cbn [snd] in Hf.
  eapply store_frame_trans; [exact Hf|].
  destruct (streams (bot_data w1)); apply reply_frame.
Qed.

Lemma cmd_setannouncechannel_frame e args w :
  store_frame w (cmd_setannouncechannel e args w).2.
Proof.
  unfold cmd_setannouncechannel.
  destruct args as [|a0 rest]; [apply reply_frame|].
  destruct (isdigit a0); [|apply reply_frame].
  destruct (get_channel e (int a0)) as [[]|]; try apply reply_frame.
  run_m. repeat split; auto.
  unfold reply, announcements. run_m. apply announcements_reply.
Qed.

Lemma on_message_frame owner e m w : store_frame w (on_message owner e m w).2.
Proof.
  unfold on_message.
  destruct (from_self m); [apply store_frame_refl|].
  destruct (negb _); [apply store_frame_refl|].
  destruct (split_space _) as [|c args]; [apply store_frame_refl|].
  repeat lazymatch goal with
  | |- context [if ?b then _ else _] => destruct b
  end;
  auto using cmd_settimezone_frame, cmd_schedule_frame, cmd_addstream_frame,
    cmd_removestream_frame, cmd_liststreams_frame, cmd_setannouncechannel_frame,
    store_frame_refl, reply_frame.
Qed.

(** ** Histories *)

(** One handler on a day [day]: either it leaves the announcements and
    the date of the last one alone, or it is the one announcement of a
    day not yet announced. *)
Lemma handle_effect owner day e ev w :
  (forall i, utc_date (clock e i) = day) ->
  let w' := (handle owner e ev w).2 in
  (announcements w' = announcements w /\
   last_announced_date_utc (bot_data w') = last_announced_date_utc (bot_data w))
  \/
  (exists a, announcements w' = announcements w ++ [a] /\
     last_announced_date_utc (bot_data w') = Some day /\
     last_announced_date_utc (bot_data w) <> Some day).
Proof.
  intros Hday. destruct ev as [| |m]; cbn [handle].
  - left. destruct (clean_old_streams_store_frame e w) as (? & ? & _). done.
  - run_m.
    pose proof (announcer_effect e w) as (_ & _ & _ & Heff). cbn zeta in Heff.
    rewrite Hday in Heff.
    destruct (daily_schedule_announcer e w) as [o w']. cbn [fst snd] in *.
    destruct Heff as [(_ & id & _ & _ & _ & Hlast & _ & Hsent & Hl & _)
                     |(_ & Hsent & _ & Hl & _)].
    + right. eexists. unfold announcements. rewrite Hsent, filter_app. done.
    + left. unfold announcements. by rewrite Hsent.
  - left. destruct (on_message_frame owner e m w) as (? & ? & _). done.
Qed.

Lemma run_no_second_announcement owner day history : forall w,
  same_day day history ->
  last_announced_date_utc (bot_data w) = Some day ->
  announcements (run owner history w) = announcements w /\
  last_announced_date_utc (bot_data (run owner history w)) = Some day.
Proof.
  induction history as [|[e ev] rest IH]; intros w Hday Hlast; [done|].
  apply Forall_cons in Hday as [He Hrest]. cbn [run].
  destruct (handle_effect owner day e ev w He) as [[Ha Hl]|(a & _ & _ & Hne)];
    [|done].
  destruct (IH (handle owner e ev w).2 Hrest) as [Ha' Hl']; [congruence|].
  split; congruence.
Qed.

Lemma run_at_most_one_announcement owner day history : forall w,
  same_day day history ->
  (length (announcements (run owner history w))
   <= S (length (announcements w)))%nat.
Proof.
  induction history as [|[e ev] rest IH]; intros w Hday; [cbn; lia|].
  apply Forall_cons in Hday as [He Hrest]. cbn [run].
  destruct (handle_effect owner day e ev w He) as [[Ha Hl]|(a & Ha & Hl & _)].
  - rewrite <- Ha. by apply IH.
  - destruct (run_no_second_announcement owner day rest _ Hrest Hl) as [-> _].
    rewrite Ha, length_app. cbn. lia.
Qed.

(** A handler that announces for a date finds another date stored and
    stores this one; any other handler leaves the stored date. *)
Lemma handle_last_announced owner e ev w :
  match announced_today e ev w with
  | Some d =>
      last_announced_date_utc (bot_data w) <> Some d /\
      last_announced_date_utc (bot_data (handle owner e ev w).2) = Some d
  | None =>
      last_announced_date_utc (bot_data (handle owner e ev w).2)
      = last_announced_date_utc (bot_data w)
  end.
Proof.
  destruct ev as [| |m]; cbn [announced_today handle].
  - by destruct (clean_old_streams_store_frame e w) as (? & _).
  - run_m. pose proof (announcer_effect e w) as (_ & _ & _ & Heff).
    cbn zeta in Heff.
    destruct (daily_schedule_announcer e w) as [o w']. cbn [fst snd] in *.
    destruct Heff as [(-> & id & _ & _ & _ & Hlast & _ & _ & Hl & _)
                     |(Hn & _ & _ & Hl & _)]; [done|].
    by destruct o.
  - by destruct (on_message_frame owner e m w) as (? & _).
Qed.

Lemma announced_dates_head owner history : forall w d,
  head (announced_dates owner history w) = Some d ->
  last_announced_date_utc (bot_data w) <> Some d.
Proof.
  induction history as [|[e ev] rest IH]; intros w d; [done|].
  cbn [announced_dates].
  pose proof (handle_last_announced owner e ev w) as Hh.
  destruct (announced_today e ev w) as [d0|].
  - cbn. intros [= <-]. by destruct Hh.
  - intros Hd. rewrite <- Hh. by apply IH.
Qed.

Lemma announced_dates_adjacent owner history : forall w i d d',
  announced_dates owner history w !! i = Some d ->
  announced_dates owner history w !! S i = Some d' ->
  d <> d'.
Proof.
  induction history as [|[e ev] rest IH]; intros w i d d'; [done|].
  cbn [announced_dates].
  pose proof (handle_last_announced owner e ev w) as Hh.
  destruct (announced_today e ev w) as [d0|]; [|apply IH].
  destruct i as [|i]; [|apply IH].
  destruct Hh as [_ Hh].
  destruct (announced_dates owner rest _) as [|d1 later] eqn:Hrest; [done|].
  cbn. intros [= <-] [= <-] ->.
  eapply (announced_dates_head owner rest); [|exact Hh]. by rewrite Hrest.
Qed.

(** The streams of a history are those of its start and streams that
    localize. *)
Lemma handle_streams owner e ev w s :
  s ∈ streams (bot_data (handle owner e ev w).2) ->
  s ∈ streams (bot_data w) \/ ~ malformed s.
Proof.
  destruct ev as [| |m]; cbn [handle].
  - apply clean_old_streams_store_frame.
  - run_m. pose proof (announcer_effect e w) as (Hs & _). cbn zeta in Hs.
    destruct (daily_schedule_announcer e w) as [o w']. cbn [snd] in *.
    rewrite Hs. apply clean_old_streams_store_frame.
  - apply on_message_frame.
Qed.

Lemma run_streams owner history : forall w,
  Forall (fun s => ~ malformed s) (streams (bot_data w)) ->
  Forall (fun s => ~ malformed s) (streams (bot_data (run owner history w))).
Proof.
  induction history as [|[e ev] rest IH]; intros w Hw; [done|].
  cbn [run]. apply IH. apply Forall_forall. intros s Hin.
  destruct (handle_streams owner e ev w s Hin) as [Hold|]; [|done].
  by eapply Forall_forall in Hw.
Qed.

(** ** The upcoming listing *)

Lemma upcoming_elem now l t d :
  (t, d) ∈ upcoming now l <->
  exists s, s ∈ l /\ stream_dt_localized s = inr t /\ now < t * 1000000 /\
            description s = d.
Proof.
  unfold upcoming. rewrite list_elem_of_omap. unfold upcoming_entry.
  split.
  - intros (s & Hin & Hs). exists s. split; [done|].
    destruct (stream_dt_localized s) as [|t']; [done|].
    case_bool_decide; [|done]. by simplify_eq.
  - intros (s & Hin & Hs & Hlt & <-). exists s. split; [done|].
    rewrite Hs. by rewrite bool_decide_eq_true_2.
Qed.

Lemma skip_lines_elem on_value on_zone l s :
  s ∈ l -> malformed s ->
  on_value s ∈ skip_lines on_value on_zone l \/
  on_zone s ∈ skip_lines on_value on_zone l.
Proof.
  intros Hin Hm. unfold malformed in Hm. unfold skip_lines.
  destruct (stream_dt_localized s) as [[]|] eqn:Hs; [left|right|done];
    apply list_elem_of_omap; exists s; by rewrite Hs.
Qed.

Lemma upcoming_pruneExpired now0 now1 l :
  now0 <= now1 -> upcoming now1 (pruneExpired now0 l) = upcoming now1 l.
Proof.
  intros Hle. unfold upcoming, pruneExpired.
  induction l as [|s l IH]; [done|].
  rewrite filter_cons. destruct (decide (~ expired now0 s)) as [Hk|Hx].
  - cbn. by rewrite IH.
  - rewrite IH. cbn. unfold upcoming_entry at 2. unfold expired in Hx.
    destruct (stream_dt_localized s) as [|t]; [done|].
    rewrite bool_decide_eq_false_2; [done|]. intros Hlt. apply Hx. lia.
Qed.

(** C3.  The listing for a store [l] at a reading [now]: the sorted
    entries are, as a multiset, the entries of the events that localize
    to an instant [> now]; they are in ascending order of timestamp;
    entries of equal timestamp keep the order of their events in the
    store.  The loop of [main.py] collects just these entries and prints
    one line for each event that fails to localize, which gives no
    entry.  The [schedule] command answers with this listing, taken on
    the store its prune left, and the announcer sends it. *)
Theorem upcoming_listing_sorted_stable (now : Z) (l : list stream) :
  let listing := sort_by_timestamp (upcoming now l) in
  listing ≡ₚ upcoming now l /\
  (forall t d, (t, d) ∈ listing <->
     exists s, s ∈ l /\ stream_dt_localized s = inr t /\ now < t * 1000000 /\
               description s = d) /\
  StronglySorted by_timestamp listing /\
  (forall k, filter (fun x : entry => x.1 = k) listing =
             filter (fun x : entry => x.1 = k) (upcoming now l)) /\
  (forall on_value on_zone w,
     let r := upcoming_loop on_value on_zone now l [] w in
     r.1 = upcoming now l /\
     console r.2 = console w ++ skip_lines on_value on_zone l /\
     forall s, s ∈ l -> malformed s ->
       (forall t, stream_dt_localized s <> inr t) /\
       (on_value s ∈ skip_lines on_value on_zone l \/
        on_zone s ∈ skip_lines on_value on_zone l)) /\
  (schedule_text (upcoming now l) =
     match listing with [] => NoUpcomingNotice | _ => UpcomingSchedule listing end) /\
  (announcement_text (upcoming now l) =
     match listing with [] => NoUpcomingNotice | _ => DailyScheduleUpdate listing end) /\
  (forall e w,
     clock e (S (clock_reads w)) = now ->
     streams (bot_data (clean_old_streams e w).2) = l ->
     sent (cmd_schedule e w).2 =
     sent w ++ [(Reply, schedule_text (upcoming now l))]) /\
  (forall e w,
     clock e (S (S (clock_reads w))) = now ->
     streams (bot_data (clean_old_streams e w).2) = l ->
     (daily_schedule_announcer e w).1 = Announced ->
     exists id, sent (daily_schedule_announcer e w).2 =
                sent w ++ [(ToChannel id, announcement_text (upcoming now l))]).
Proof.
  intros listing. subst listing.
  split; [apply sort_by_timestamp_perm|].
  split. { intros t d. rewrite sort_by_timestamp_perm. apply upcoming_elem. }
  split; [apply sort_by_timestamp_sorted|].
  split; [intros k; apply sort_by_timestamp_stable|].
  split.
  { intros on_value on_zone w. cbn zeta. rewrite upcoming_loop_spec.
    cbn [fst snd console]. split; [done|]. split; [done|].
    intros s Hin Hm. split; [|by apply skip_lines_elem].
    intros t Ht. unfold malformed in Hm. by rewrite Ht in Hm. }
  split.
  { unfold schedule_text. destruct (upcoming now l) as [|x u] eqn:Hu; [done|].
    destruct (sort_by_timestamp (x :: u)) eqn:Hs; [|done].
    by apply sort_by_timestamp_nil in Hs. }
  split.
  { unfold announcement_text. destruct (upcoming now l) as [|x u] eqn:Hu; [done|].
    destruct (sort_by_timestamp (x :: u)) eqn:Hs; [|done].
    by apply sort_by_timestamp_nil in Hs. }
  split.
  { intros e w <- <-. by rewrite cmd_schedule_spec. }
  intros e w <- <- Ha.
  pose proof (announcer_effect e w) as (_ & _ & _ & Heff). cbn zeta in Heff.
  destruct Heff as [(_ & id & _ & _ & _ & _ & _ & Hsent & _)|(Hn & _)]; [|done].
  by exists id.
Qed.

(** ** Removal by index *)

(** C6.  The removal at an index outside [0, len) answers "Invalid stream
    index" and leaves [bot_data] and the file alone.  At an index inside,
    it answers with the stream that was there and saves the list without
    it: the streams before the index stay where they are and every later
    stream moves down by one.  The [removestream] command does this on
    the list its prune left, with the index it reads. *)
Theorem remove_stream_at_index (index_to_remove : Z) (w : world) :
  let l := streams (bot_data w) in
  let w' := (remove_stream_at index_to_remove w).2 in
  let i := Z.to_nat index_to_remove in
  (~ (0 <= index_to_remove < Z.of_nat (length l)) ->
     bot_data w' = bot_data w /\ schedule_file w' = schedule_file w /\
     saves w' = saves w /\
     sent w' = sent w ++ [(Reply, InvalidStreamIndex)]) /\
  (0 <= index_to_remove < Z.of_nat (length l) ->
     exists removed_stream,
       l !! i = Some removed_stream /\
       sent w' = sent w ++ [(Reply, RemovedStream removed_stream)] /\
       streams (bot_data w') = take i l ++ drop (S i) l /\
       S (length (streams (bot_data w'))) = length l /\
       (forall j, (j < i)%nat -> streams (bot_data w') !! j = l !! j) /\
       (forall j, (i <= j)%nat -> streams (bot_data w') !! j = l !! S j) /\
       user_timezones (bot_data w') = user_timezones (bot_data w) /\
       announcement_channel_id (bot_data w') = announcement_channel_id (bot_data w) /\
       last_announced_date_utc (bot_data w') = last_announced_date_utc (bot_data w) /\
       schedule_file w' = Some (bot_data w') /\
       saves w' = S (saves w)) /\
  (forall e a0 rest w0,
     isdigit a0 = true ->
     cmd_removestream e (a0 :: rest) w0 =
     remove_stream_at (int a0) (clean_old_streams e w0).2).
Proof.
  cbn zeta. unfold remove_stream_at. run_m.
  split; [|split].
  - intros Hout.
    destruct (Z.leb_spec 0 index_to_remove), (Z.ltb_spec index_to_remove
      (Z.of_nat (length (streams (bot_data w))))); try lia; by cbn.
  - intros Hin.
    destruct (Z.leb_spec 0 index_to_remove); [|lia].
    destruct (Z.ltb_spec index_to_remove
      (Z.of_nat (length (streams (bot_data w))))); [|lia].
    cbn [andb].
    destruct (lookup_lt_is_Some_2 (streams (bot_data w))
                (Z.to_nat index_to_remove)) as [removed Hr]; [lia|].
    rewrite Hr. unfold reply. run_m. exists removed.
    repeat split; try done.
    + apply delete_take_drop.
    + cbn [bot_data with_streams streams]. rewrite length_delete by eauto.
      apply lookup_lt_Some in Hr. lia.
    + intros j Hj. by apply list_lookup_delete_lt.
    + intros j Hj. by apply list_lookup_delete_ge.
  - intros e a0 rest w0 Hd. unfold cmd_removestream. run_m.
    destruct (clean_old_streams e w0) as [[] w1]. by rewrite Hd.
Qed.

(** ** Setting a time zone *)

(** C8.  For a zone name [pytz] does not know, [set_user_timezone]
    returns [False] and the world is as before: no preference is
    written and nothing is saved.  The [settimezone] command then only
    answers that the name is invalid. *)
Theorem set_user_timezone_unknown_zone
    (user_id : Z) (timezone_name : string) (w : world) :
  timezone timezone_name = None ->
  set_user_timezone user_id timezone_name w = (false, w) /\
  forall rest,
    let w' := (cmd_settimezone user_id (timezone_name :: rest) w).2 in
    bot_data w' = bot_data w /\ schedule_file w' = schedule_file w /\
    saves w' = saves w /\
    sent w' = sent w ++ [(Reply, TimezoneInvalid timezone_name)].
Proof.
  intros Hz. unfold cmd_settimezone, set_user_timezone. rewrite Hz.
  split; [done|]. intros rest. by run_m.
Qed.

(** ** The announcer *)

(** C1.  On a day [day]: a run of the announcer with a destination
    configured and found, on which the send goes through, and with a last
    announced date other than [day], sends one message to the
    destination, sets the last announced date to [day] and saves.  A run
    with a destination configured and the last announced date equal to
    [day] ends suppressed and sends nothing.  Once the date is [day], no
    history of the day adds an announcement; hence every history of one
    day adds at most one announcement to those sent.  And in every
    history, over any days, an announcement is never for the date the
    store holds, so two announcements in a row are never for the same
    date: a day is announced twice only if another day is announced in
    between. *)
Theorem announcer_at_most_once_per_day (day : string) :
  (forall e w id,
     announcement_channel_id (bot_data w) = Some id -> id <> 0 ->
     is_Some (get_channel e id) ->
     (forall text, channel_send e id text = Delivered) ->
     utc_date (clock e (S (clock_reads w))) = day ->
     last_announced_date_utc (bot_data w) <> Some day ->
     let r := daily_schedule_announcer e w in
     r.1 = Announced /\
     (exists text, sent r.2 = sent w ++ [(ToChannel id, text)]) /\
     last_announced_date_utc (bot_data r.2) = Some day /\
     schedule_file r.2 = Some (bot_data r.2)) /\
  (forall e w id,
     announcement_channel_id (bot_data w) = Some id -> id <> 0 ->
     utc_date (clock e (S (clock_reads w))) = day ->
     last_announced_date_utc (bot_data w) = Some day ->
     let r := daily_schedule_announcer e w in
     r.1 = Suppressed /\ sent r.2 = sent w /\
     last_announced_date_utc (bot_data r.2) = Some day) /\
  (forall owner history w,
     same_day day history ->
     last_announced_date_utc (bot_data w) = Some day ->
     announcements (run owner history w) = announcements w) /\
  (forall owner history w,
     same_day day history ->
     (length (announcements (run owner history w))
      <= S (length (announcements w)))%nat) /\
  (forall owner history w,
     let dates := announced_dates owner history w in
     (forall d, head dates = Some d ->
                last_announced_date_utc (bot_data w) <> Some d) /\
     (forall i d d', dates !! i = Some d -> dates !! S i = Some d' -> d <> d')).
Proof.
  split; [|split; [|split; [|split]]].
  - intros e w id Hc Hnz [b Hg] Hsend Hday Hlast. cbn zeta.
    rewrite (announcer_delivery e w id b), Hsend by (by rewrite ?Hday).
    cbn [fst snd bot_data sent schedule_file last_announced_date_utc
         with_last_announced_date_utc]. rewrite Hday. eauto.
  - intros e w id Hc Hnz Hday Hlast. cbn zeta.
    rewrite (announcer_suppressed e w id) by (by rewrite ?Hday).
    run_m. pose proof (clean_old_streams_frame e w) as (_ & _ & Hl & Hs & _).
    cbn zeta in *. by rewrite Hl, Hs.
  - intros owner history w Hday Hlast.
    by destruct (run_no_second_announcement owner day history w Hday Hlast).
  - intros owner history w Hday.
    by apply (run_at_most_one_announcement owner day).
  - intros owner history w. cbn zeta. split.
    + apply announced_dates_head.
    + apply announced_dates_adjacent.
Qed.

(** C7, as the code has it.  With no destination configured ([null], or
    the id 0, which Python takes for false) the announcer ends skipped
    and sends nothing; the prune it starts with has run, and after it
    nothing changes: [bot_data], the file and the number of saves are
    those the prune left, and time zones, destination and last announced
    date are those before the run.  When no event is expired the run
    changes neither [bot_data] nor the file. *)
Theorem announcer_unconfigured_skips (e : env) (w : world) :
  announcement_channel_id (bot_data w) = None \/
  announcement_channel_id (bot_data w) = Some 0 ->
  let r := daily_schedule_announcer e w in
  let w1 := (clean_old_streams e w).2 in
  r.1 = Skipped /\
  sent r.2 = sent w /\
  bot_data r.2 = bot_data w1 /\
  schedule_file r.2 = schedule_file w1 /\
  saves r.2 = saves w1 /\
  user_timezones (bot_data r.2) = user_timezones (bot_data w) /\
  announcement_channel_id (bot_data r.2) = announcement_channel_id (bot_data w) /\
  last_announced_date_utc (bot_data r.2) = last_announced_date_utc (bot_data w) /\
  (~ (exists s, s ∈ streams (bot_data w) /\ expired (clock e (clock_reads w)) s) ->
     bot_data r.2 = bot_data w /\ schedule_file r.2 = schedule_file w /\
     saves r.2 = saves w).
Proof.
  intros Hc. cbn zeta. rewrite announcer_unconfigured by done. run_m.
  pose proof (clean_old_streams_frame e w) as (Hu & Hid & Hl & Hs & _).
  cbn zeta in *. do 8 (split; [done|]).
  intros Hn. exact (clean_old_streams_removes_expired_or_nothing e w Hn).
Qed.

(** ** The clock *)

(** C4, as the code has it.  A prune reads the clock once and compares
    every event with that reading.  The [schedule] command reads it
    twice: its prune compares with the first reading and its listing
    with the second.  The announcer reads it up to three times: its
    prune compares with the first reading, the date of the day comes
    from the second and the listing compares with the third.  When the
    readings an operation compares with are the same instant [now], the
    store is the prune at [now] of the store before, and the listing is
    the upcoming view at [now] of the store before. *)
Theorem clock_read_once_per_phase (e : env) (w : world) :
  let now0 := clock e (clock_reads w) in
  let now1 := clock e (S (clock_reads w)) in
  let now2 := clock e (S (S (clock_reads w))) in
  let l := streams (bot_data w) in
  (clock_reads (clean_old_streams e w).2 = S (clock_reads w) /\
   streams (bot_data (clean_old_streams e w).2) = pruneExpired now0 l) /\
  (clock_reads (cmd_schedule e w).2 = S (S (clock_reads w)) /\
   streams (bot_data (cmd_schedule e w).2) = pruneExpired now0 l /\
   sent (cmd_schedule e w).2 =
   sent w ++ [(Reply, schedule_text (upcoming now1 (pruneExpired now0 l)))]) /\
  (let r := daily_schedule_announcer e w in
   (S (clock_reads w) <= clock_reads r.2 <= S (S (S (clock_reads w))))%nat /\
   streams (bot_data r.2) = pruneExpired now0 l /\
   (r.1 = Announced ->
    clock_reads r.2 = S (S (S (clock_reads w))) /\
    last_announced_date_utc (bot_data r.2) = Some (utc_date now1) /\
    exists id, sent r.2 =
      sent w ++ [(ToChannel id,
                  announcement_text (upcoming now2 (pruneExpired now0 l)))])) /\
  (forall now, now0 = now -> now1 = now ->
     streams (bot_data (cmd_schedule e w).2) = pruneExpired now l /\
     sent (cmd_schedule e w).2 =
     sent w ++ [(Reply, schedule_text (upcoming now l))]) /\
  (forall now, now0 = now -> now2 = now ->
     let r := daily_schedule_announcer e w in
     streams (bot_data r.2) = pruneExpired now l /\
     (r.1 = Announced ->
      exists id, sent r.2 =
        sent w ++ [(ToChannel id, announcement_text (upcoming now l))])).
Proof.
  cbn zeta.
  pose proof (clean_old_streams_frame e w) as (_ & _ & _ & _ & Hr).
  pose proof (clean_old_streams_streams e w) as Hst.
  pose proof (announcer_effect e w) as (Has & _ & _ & Heff).
  cbn zeta in *. rewrite Hst in Has.
  assert (streams (bot_data (cmd_schedule e w).2)
          = pruneExpired (clock e (clock_reads w)) (streams (bot_data w))
          /\ sent (cmd_schedule e w).2 = sent w ++
               [(Reply, schedule_text
                          (upcoming (clock e (S (clock_reads w)))
                             (pruneExpired (clock e (clock_reads w))
                                (streams (bot_data w)))))]
          /\ clock_reads (cmd_schedule e w).2 = S (S (clock_reads w)))
    as (Hs1 & Hs2 & Hs3).
  { rewrite cmd_schedule_spec. cbn [snd bot_data sent clock_reads].
    by rewrite Hst. }
  assert ((daily_schedule_announcer e w).1 = Announced ->
          clock_reads (daily_schedule_announcer e w).2
            = S (S (S (clock_reads w))) /\
          last_announced_date_utc (bot_data (daily_schedule_announcer e w).2)
            = Some (utc_date (clock e (S (clock_reads w)))) /\
          exists id, sent (daily_schedule_announcer e w).2 =
            sent w ++ [(ToChannel id,
              announcement_text
                (upcoming (clock e (S (S (clock_reads w))))
                   (pruneExpired (clock e (clock_reads w))
                      (streams (bot_data w)))))]) as Hann.
  { intros Ha. rewrite Hst in Heff.
    destruct Heff as [(_ & id & _ & _ & _ & _ & _ & Hsent & Hl & _ & _ & Hc)
                     |(Hn & _)]; [|done].
    eauto. }
  split; [done|]. split; [done|]. split.
  { split; [|done].
    destruct Heff as [(_ & id & _ & _ & _ & _ & _ & _ & _ & _ & _ & Hc)
                     |(_ & _ & _ & _ & _ & _ & Hc)]; lia. }
  split.
  - intros now H0 H1. rewrite Hs1, Hs2, H0, H1.
    by rewrite upcoming_pruneExpired by lia.
  - intros now H0 H2. rewrite Has, H0. split; [done|].
    intros Ha. destruct (Hann Ha) as (_ & _ & id & Hsent).
    exists id. rewrite Hsent, H0, H2. by rewrite upcoming_pruneExpired by lia.
Qed.

(** ** Where malformed entries come from *)

Lemma no_malformed_no_warnings l :
  Forall (fun s => ~ malformed s) l ->
  cleanup_warnings l = [] /\
  forall on_value on_zone, skip_lines on_value on_zone l = [].
Proof.
  unfold cleanup_warnings, skip_lines.
  induction 1 as [|s l Hs Hl [IH1 IH2]]; [done|].
  unfold malformed in Hs. cbn.
  destruct (stream_dt_localized s); [done|]. split; [done|]. apply IH2.
Qed.

Lemma malformed_checks s :
  ~ malformed s <->
  is_Some (strptime (datetime s)) /\ is_Some (timezone (original_timezone s)).
Proof.
  unfold malformed, stream_dt_localized.
  destruct (strptime (datetime s)) as [naive|].
  - destruct (timezone (original_timezone s)) as [tz|].
    + split; [eauto|tauto].
    + split; [tauto|]. by intros [_ [? [=]]].
  - split; [tauto|]. by intros [[? [=]] _].
Qed.

(** The dispatch that [starts_with_prune] follows is that of
    [on_message]. *)
Lemma starts_with_prune_message owner e m w :
  if starts_with_prune owner (Message m) then
    on_message owner e m w = cmd_schedule e w \/
    (exists args, on_message owner e m w = cmd_removestream e args w) \/
    on_message owner e m w = cmd_liststreams e w
  else
    on_message owner e m w = (tt, w) \/
    (exists args, on_message owner e m w = cmd_settimezone (author_id m) args w) \/
    (exists args, on_message owner e m w = cmd_addstream args w) \/
    (exists args, on_message owner e m w = cmd_setannouncechannel e args w) \/
    (exists c, on_message owner e m w = reply (UnknownCommand c) w).
Proof.
  unfold starts_with_prune, on_message.
  destruct (from_self m); [by left|].
  destruct (negb _); [by left|].
  destruct (split_space _) as [|c args]; [by left|]. cbn zeta.
  destruct (bool_decide (lower c = "settimezone"%string)); [right; left; eauto|].
  destruct (bool_decide (lower c = "schedule"%string)); [by left|].
  destruct (author_id m =? owner); [|do 4 right; eauto].
  destruct (bool_decide (lower c = "addstream"%string));
    [right; right; left; eauto|].
  destruct (bool_decide (lower c = "removestream"%string)); [right; left; eauto|].
  destruct (bool_decide (lower c = "liststreams"%string)); [by right; right|].
  destruct (bool_decide (lower c = "setannouncechannel"%string));
    [do 3 right; left; eauto|by left].
Qed.

Lemma handle_with_overflow_streams overflows owner e ev w s :
  s ∈ streams (bot_data (handle_with_overflow overflows owner e ev w)) ->
  s ∈ streams (bot_data w) \/ ~ malformed s.
Proof.
  unfold handle_with_overflow. destruct (_ && _); [by left|].
  apply handle_streams.
Qed.

Lemma run_with_overflow_streams overflows owner history : forall w,
  Forall (fun s => ~ malformed s) (streams (bot_data w)) ->
  Forall (fun s => ~ malformed s)
         (streams (bot_data (run_with_overflow overflows owner history w))).
Proof.
  induction history as [|[e ev] rest IH]; intros w Hw; [done|].
  cbn [run_with_overflow]. apply IH. apply Forall_forall. intros s Hin.
  destruct (handle_with_overflow_streams overflows owner e ev w s Hin)
    as [Hold|]; [|done].
  by eapply Forall_forall in Hw.
Qed.

Lemma no_malformed_before_overflow overflows l :
  Forall (fun s => ~ malformed s) l ->
  Forall (fun s => ~ malformed s) (before_overflow overflows l).
Proof.
  induction 1 as [|s l Hs Hl IH]; [done|]. cbn.
  destruct (localize_raises overflows s); by constructor.
Qed.

(** C10.  [addstream] appends a stream only when [strptime] accepts the
    datetime it stores and [pytz] knows the zone it stores: the list
    after the command is the list before, or the list before with one
    more stream, on which no stream loop raises [ValueError] or
    [UnknownTimeZoneError].  Malformed are exactly the streams that fail
    one of the two checks.  So from a store without malformed streams,
    every history leads to a store without them, wherever [tz.localize]
    raises [OverflowError] and handlers are left by it: on such a store a
    prune the exception leaves has printed no warning, and loops that
    run to their end print no line for a malformed entry. *)
Theorem addstream_never_appends_malformed :
  (forall args w,
     let w' := (cmd_addstream args w).2 in
     streams (bot_data w') = streams (bot_data w) \/
     exists s, streams (bot_data w') = streams (bot_data w) ++ [s] /\
               is_Some (strptime (datetime s)) /\
               is_Some (timezone (original_timezone s)) /\
               forall ex, stream_dt_localized s <> inl ex) /\
  (forall s,
     ~ malformed s <->
     is_Some (strptime (datetime s)) /\ is_Some (timezone (original_timezone s))) /\
  (forall overflows owner history w,
     Forall (fun s => ~ malformed s) (streams (bot_data w)) ->
     let w' := run_with_overflow overflows owner history w in
     Forall (fun s => ~ malformed s) (streams (bot_data w')) /\
     console (overflow_abort overflows w') = console w' /\
     (forall now updated removed w0,
        existsb (localize_raises overflows) (streams (bot_data w')) = false ->
        console (clean_loop now (streams (bot_data w')) updated removed w0).2
        = console w0) /\
     (forall on_value on_zone now acc w0,
        existsb (localize_raises overflows) (streams (bot_data w')) = false ->
        console (upcoming_loop on_value on_zone now
                   (streams (bot_data w')) acc w0).2
        = console w0)).
Proof.
  split; [|split; [apply malformed_checks|]].
  - intros args w. cbn zeta. unfold cmd_addstream.
    destruct args as [|a0 [|a1 [|tz rest]]]; try by left.
    destruct (strptime _) as [naive|] eqn:Hp; [|by left].
    destruct (timezone tz) as [info|] eqn:Ht; [|by left].
    right. eexists. unfold reply. run_m.
    split; [done|]. cbn [datetime original_timezone].
    rewrite Hp, Ht. repeat split; eauto.
    intros ex. by rewrite (stream_dt_localized_new _ _ _ _ _ _ Hp Ht).
  - intros overflows owner history w Hw. cbn zeta.
    pose proof (run_with_overflow_streams overflows owner history w Hw) as Hrun.
    destruct (no_malformed_no_warnings _ Hrun) as [Hc Hs].
    destruct (no_malformed_no_warnings _
                (no_malformed_before_overflow overflows _ Hrun)) as [Hb _].
    split; [done|]. split; [|split].
    + unfold overflow_abort. cbn [console]. by rewrite Hb, app_nil_r.
    + intros. rewrite clean_loop_spec. cbn [snd console].
      by rewrite Hc, app_nil_r.
    + intros. rewrite upcoming_loop_spec. cbn [snd console].
      by rewrite Hs, app_nil_r.
Qed.

End Properties.

(** * Further properties of the handlers *)

Section Further.
Context {L : DateLib}.

(** ** Prunes in a row *)

Lemma pruneExpired_pruneExpired now1 now2 l :
  pruneExpired now2 (pruneExpired now1 l) = pruneExpired (Z.max now1 now2) l.
Proof.
  unfold pruneExpired. rewrite list_filter_filter. apply list_filter_iff.
  intros s. unfold expired. destruct (stream_dt_localized s); [tauto|lia].
Qed.

Lemma pruneExpired_earlier now1 now2 l :
  now2 <= now1 -> pruneExpired now2 (pruneExpired now1 l) = pruneExpired now1 l.
Proof. intros Hle. rewrite pruneExpired_pruneExpired. f_equal. lia. Qed.

Lemma pruneExpired_nothing_expired now l :
  pruneExpired now l = l -> ~ (exists s, s ∈ l /\ expired now s).
Proof.
  intros Heq (s & Hin & He). rewrite <- Heq in Hin.
  apply list_elem_of_filter in Hin. tauto.
Qed.

(** X1.  Two prunes in a row, at the readings [now1] and [now2], leave
    what one prune at the later of the two leaves, in the order of the
    store; and a second prune whose reading is not later than the first's
    changes nothing and does not save. *)
Theorem clean_old_streams_twice (e1 e2 : env) (w : world) :
  let now1 := clock e1 (clock_reads w) in
  let now2 := clock e2 (S (clock_reads w)) in
  let w1 := (clean_old_streams e1 w).2 in
  let w2 := (clean_old_streams e2 w1).2 in
  streams (bot_data w2) = pruneExpired (Z.max now1 now2) (streams (bot_data w)) /\
  streams (bot_data w2) `sublist_of` streams (bot_data w) /\
  (now2 <= now1 ->
   bot_data w2 = bot_data w1 /\ schedule_file w2 = schedule_file w1 /\
   saves w2 = saves w1).
Proof.
  cbn zeta.
  pose proof (clean_old_streams_frame e1 w) as (_ & _ & _ & _ & Hr).
  cbn zeta in Hr.
  assert (streams (bot_data (clean_old_streams e2 (clean_old_streams e1 w).2).2)
          = pruneExpired (Z.max (clock e1 (clock_reads w))
                                (clock e2 (S (clock_reads w))))
                         (streams (bot_data w))) as Hst.
  { rewrite !clean_old_streams_streams, Hr. apply pruneExpired_pruneExpired. }
  split; [exact Hst|]. split.
  - rewrite Hst. apply sublist_filter.
  - intros Hle. apply clean_old_streams_removes_expired_or_nothing.
    apply pruneExpired_nothing_expired.
    rewrite Hr, clean_old_streams_streams. by apply pruneExpired_earlier.
Qed.

(** ** The check the listing repeats *)

(** X2.  The comment of lines 142 and 245 calls the test
    [stream_dt_localized > now_utc] of the listing redundant after a
    prune.  It is when the listing's reading is not later than the
    prune's: then every stream the [schedule] command leaves in the store
    that localizes has its entry in the listing sent. *)
Theorem schedule_lists_every_stream_left (e : env) (w : world) (s : stream) (t : Z) :
  clock e (S (clock_reads w)) <= clock e (clock_reads w) ->
  s ∈ streams (bot_data (cmd_schedule e w).2) ->
  stream_dt_localized s = inr t ->
  exists listing,
    sent (cmd_schedule e w).2 = sent w ++ [(Reply, UpcomingSchedule listing)] /\
    (t, description s) ∈ listing.
Proof.
  intros Hle. rewrite cmd_schedule_spec. cbn [snd bot_data sent].
  rewrite clean_old_streams_streams. intros Hin Hs.
  assert ((t, description s) ∈ upcoming (clock e (S (clock_reads w)))
            (pruneExpired (clock e (clock_reads w)) (streams (bot_data w))))
    as Hup.
  { apply upcoming_elem. exists s. split; [done|]. split; [done|].
    split; [|done]. apply list_elem_of_filter in Hin as [Hne _].
    rewrite (expired_inr _ _ _ Hs) in Hne. lia. }
  unfold schedule_text.
  destruct (upcoming _ _) as [|x u] eqn:Hu; [by apply not_elem_of_nil in Hup|].
  eexists. split; [done|]. by rewrite sort_by_timestamp_perm.
Qed.

(** ** The index of [removestream] *)

Lemma is_digit_char_value c :
  is_digit_char c = true -> 0 <= Z.of_nat (nat_of_ascii c) - 48 <= 9.
Proof.
  unfold is_digit_char. rewrite andb_true_iff, !Nat.leb_le. lia.
Qed.

Lemma int_go_nonneg s : forall acc,
  all_digits s = true -> 0 <= acc -> 0 <= int_go acc s.
Proof.
  induction s as [|c r IH]; intros acc Hd Hacc; [done|].
  cbn in *. apply andb_true_iff in Hd as [Hc Hr].
  apply IH; [done|]. apply is_digit_char_value in Hc. lia.
Qed.

Lemma int_nonneg s : isdigit s = true -> 0 <= int s.
Proof.
  unfold isdigit, int. destruct s; [done|]. intros Hd.
  by apply int_go_nonneg.
Qed.

(** X3.  For arguments in ASCII, [removestream] never counts from the
    end of the list, as [pop] would for a negative index: the command
    leaves the list its prune left, or that list without the stream at a
    position [i] below its length, and then the first argument is a
    string of digits that reads [i]. *)
Theorem cmd_removestream_removes_at_most_one (e : env) (args : list string) (w : world) :
  (forall a0 rest, args = a0 :: rest -> ascii_text a0) ->
  let l := streams (bot_data (clean_old_streams e w).2) in
  let w' := (cmd_removestream e args w).2 in
  streams (bot_data w') = l \/
  exists a0 rest i,
    args = a0 :: rest /\ isdigit a0 = true /\ int a0 = Z.of_nat i /\
    (i < length l)%nat /\ streams (bot_data w') = delete i l.
Proof.
  intros _. cbn zeta. unfold cmd_removestream. run_m.
  destruct (clean_old_streams e w) as [[] w1]. cbn [snd].
  destruct args as [|a0 rest]; [by left|].
  destruct (isdigit a0) eqn:Hd; [|by left].
  pose proof (int_nonneg a0 Hd) as Hnn.
  unfold remove_stream_at. run_m.
  destruct (Z.leb_spec 0 (int a0)); [|lia].
  destruct (Z.ltb_spec (int a0) (Z.of_nat (length (streams (bot_data w1)))));
    [|by left].
  cbn [andb].
  destruct (lookup_lt_is_Some_2 (streams (bot_data w1)) (Z.to_nat (int a0)))
    as [removed Hr]; [lia|].
  rewrite Hr. right. exists a0, rest, (Z.to_nat (int a0)).
  repeat split; try done; lia.
Qed.

(** ** The dispatch of [on_message] *)

(** The branch a message takes. *)
Lemma on_message_cases owner e m w :
  on_message owner e m w = (tt, w) \/
  (exists args, on_message owner e m w = cmd_settimezone (author_id m) args w) \/
  on_message owner e m w = cmd_schedule e w \/
  (author_id m = owner /\
   ((exists args, on_message owner e m w = cmd_addstream args w) \/
    (exists args, on_message owner e m w = cmd_removestream e args w) \/
    on_message owner e m w = cmd_liststreams e w \/
    (exists args, on_message owner e m w = cmd_setannouncechannel e args w))) \/
  (author_id m <> owner /\
   exists c, on_message owner e m w = reply (UnknownCommand c) w).
Proof.
  unfold on_message.
  destruct (from_self m); [by left|].
  destruct (negb _); [by left|].
  destruct (split_space _) as [|c args]; [by left|].
  destruct (bool_decide _); [right; left; eauto|].
  destruct (bool_decide _); [right; right; left; eauto|].
  destruct (Z.eqb_spec (author_id m) owner) as [Ho|Ho].
  - destruct (bool_decide _); [do 3 right; left; eauto|].
    destruct (bool_decide _); [do 3 right; left; eauto|].
    destruct (bool_decide _); [do 3 right; left; eauto|].
    destruct (bool_decide _); [do 3 right; left; eauto 6|].
    by left.
  - do 4 right. eauto.
Qed.

(** X4.  The bot does not answer itself nor a text without the [!]
    prefix.  A command other than [settimezone] and [schedule] from an
    author who is not the owner has one effect, the answer "Unknown
    command" with the command in lower case: it runs no owner command.
    From the owner, a command that is none of the six gets no answer at
    all. *)
Theorem on_message_unrecognized (owner : Z) (e : env) (m : incoming) (w : world) :
  (from_self m = true \/ starts_with_bang (content m) = false ->
   on_message owner e m w = (tt, w)) /\
  (forall c args,
     from_self m = false -> starts_with_bang (content m) = true ->
     split_space (drop_first (content m)) = c :: args ->
     lower c <> "settimezone"%string -> lower c <> "schedule"%string ->
     (author_id m <> owner ->
      on_message owner e m w = reply (UnknownCommand (lower c)) w /\
      bot_data (on_message owner e m w).2 = bot_data w /\
      schedule_file (on_message owner e m w).2 = schedule_file w) /\
     (author_id m = owner ->
      lower c <> "addstream"%string -> lower c <> "removestream"%string ->
      lower c <> "liststreams"%string ->
      lower c <> "setannouncechannel"%string ->
      on_message owner e m w = (tt, w))).
Proof.
  split.
  - unfold on_message. intros [-> | ->]; [done|]. by destruct (from_self m).
  - intros c args Hself Hbang Hsplit H1 H2. unfold on_message.
    rewrite Hself, Hbang, Hsplit. cbn [negb].
    rewrite !bool_decide_eq_false_2 by done.
    split.
    + intros Ho. destruct (Z.eqb_spec (author_id m) owner); done.
    + intros Ho H3 H4 H5 H6. destruct (Z.eqb_spec (author_id m) owner); [|done].
      by rewrite !bool_decide_eq_false_2 by done.
Qed.

(** ** Every change is saved *)

Lemma saved_step_refl w : saved_step w w.
Proof. by left. Qed.

Lemma saved_step_trans w1 w2 w3 :
  saved_step w1 w2 -> saved_step w2 w3 -> saved_step w1 w3.
Proof.
  intros [(Hd1 & Hf1 & Hs1)|(Hf1 & Hs1)] [(Hd2 & Hf2 & Hs2)|(Hf2 & Hs2)].
  - left. repeat split; congruence.
  - right. split; [done|lia].
  - right. split; [congruence|lia].
  - right. split; [done|lia].
Qed.

Lemma reply_saved_step t w : saved_step w (reply t w).2.
Proof. by left. Qed.

Lemma clean_old_streams_saved_step e w : saved_step w (clean_old_streams e w).2.
Proof.
  rewrite clean_old_streams_spec. cbn [snd].
  destruct (_ <? _)%nat; [right|left]; cbn; repeat split; lia.
Qed.

Lemma cmd_settimezone_saved_step author args w :
  saved_step w (cmd_settimezone author args w).2.
Proof.
  unfold cmd_settimezone, set_user_timezone.
  destruct args as [|name rest]; [by left|].
  destruct (timezone name); unfold reply; run_m; [right|left]; cbn;
    repeat split; lia.
Qed.

Lemma cmd_schedule_saved_step e w : saved_step w (cmd_schedule e w).2.
Proof.
  rewrite cmd_schedule_spec. cbn [snd].
  destruct (clean_old_streams_saved_step e w) as [(? & ? & ?)|(? & ?)];
    [left|right]; by cbn.
Qed.

Lemma cmd_addstream_saved_step args w : saved_step w (cmd_addstream args w).2.
Proof.
  unfold cmd_addstream.
  destruct args as [|a0 [|a1 [|tz rest]]]; try by left.
  destruct (strptime _); [|by left].
  destruct (timezone tz); [|by left].
  unfold reply. run_m. right. cbn. split; [done|lia].
Qed.

Lemma remove_stream_at_saved_step idx w : saved_step w (remove_stream_at idx w).2.
Proof.
  unfold remove_stream_at. run_m.
  destruct (_ && _); [|by left].
  destruct (streams (bot_data w) !! Z.to_nat idx); [|by left].
  unfold reply. run_m. right. cbn. split; [done|lia].
Qed.

Lemma cmd_removestream_saved_step e args w :
  saved_step w (cmd_removestream e args w).2.
Proof.
  unfold cmd_removestream. run_m.
  pose proof (clean_old_streams_saved_step e w) as Hc.
  destruct (clean_old_streams e w) as [[] w1]. cbn [snd] in Hc.
  eapply saved_step_trans; [exact Hc|].
  destruct args as [|a0 rest]; [by left|].
  destruct (isdigit a0); [apply remove_stream_at_saved_step|by left].
Qed.

Lemma cmd_liststreams_saved_step e w : saved_step w (cmd_liststreams e w).2.
Proof.
  unfold cmd_liststreams. run_m.
  pose proof (clean_old_streams_saved_step e w) as Hc.
  destruct (clean_old_streams e w) as [[] w1]. cbn [snd] in Hc.
  eapply saved_step_trans; [exact Hc|].
  destruct (streams (bot_data w1)); by left.
Qed.

Lemma cmd_setannouncechannel_saved_step e args w :
  saved_step w (cmd_setannouncechannel e args w).2.
Proof.
  unfold cmd_setannouncechannel.
  destruct args as [|a0 rest]; [by left|].
  destruct (isdigit a0); [|by left].
  destruct (get_channel e (int a0)) as [[]|]; try by left.
  unfold reply. run_m. right. cbn. split; [done|lia].
Qed.

Lemma on_message_saved_step owner e m w : saved_step w (on_message owner e m w).2.
Proof.
  destruct (on_message_cases owner e m w)
    as [-> | [[args ->] | [-> | [[_ [[args ->] | [[args ->] | [-> | [args ->]]]]]
                               | [_ [c ->]]]]]];
    auto using saved_step_refl, cmd_settimezone_saved_step,
      cmd_schedule_saved_step, cmd_addstream_saved_step,
      cmd_removestream_saved_step, cmd_liststreams_saved_step,
      cmd_setannouncechannel_saved_step, reply_saved_step.
Qed.

Lemma announcer_saved_step e w : saved_step w (daily_schedule_announcer e w).2.
Proof.
  pose proof (announcer_effect e w) as (_ & _ & _ & Heff). cbn zeta in Heff.
  destruct Heff as [(_ & id & _ & _ & _ & _ & _ & _ & _ & Hf & Hs & _)
                   |(_ & _ & Hd & _ & Hf & Hs & _)].
  - right. split; [done|].
    destruct (clean_old_streams_saved_step e w) as [(_ & _ & ?)|(_ & ?)]; lia.
  - destruct (clean_old_streams_saved_step e w) as [(? & ? & ?)|(? & ?)];
      [left|right]; repeat split; congruence.
Qed.

Lemma handle_saved_step owner e ev w : saved_step w (handle owner e ev w).2.
Proof.
  destruct ev as [| |m]; cbn [handle].
  - apply clean_old_streams_saved_step.
  - run_m. pose proof (announcer_saved_step e w) as Ha.
    by destruct (daily_schedule_announcer e w).
  - apply on_message_saved_step.
Qed.

(** X5.  No handler leaves a change of [bot_data] unsaved: after a
    start, a timer run or a message, [bot_data] and the file are as
    before, or [save_data] has run and the file holds the [bot_data] the
    handler leaves.  So once the file holds [bot_data], it does after
    every history. *)
Theorem handlers_save_every_change (owner : Z) :
  (forall e ev w, saved_step w (handle owner e ev w).2) /\
  (forall history w,
     schedule_file w = Some (bot_data w) ->
     schedule_file (run owner history w) = Some (bot_data (run owner history w))).
Proof.
  split; [apply handle_saved_step|].
  induction history as [|[e ev] rest IH]; intros w Hw; [done|].
  cbn [run]. apply IH.
  destruct (handle_saved_step owner e ev w) as [(Hd & Hf & _)|(Hf & _)];
    congruence.
Qed.

(** ** Who changes what *)

Lemma cmd_settimezone_effect author args w :
  let w' := (cmd_settimezone author args w).2 in
  streams (bot_data w') = streams (bot_data w) /\
  announcement_channel_id (bot_data w') = announcement_channel_id (bot_data w) /\
  forall key, key <> pretty author ->
    user_timezones (bot_data w') !! key = user_timezones (bot_data w) !! key.
Proof.
  cbn zeta. unfold cmd_settimezone, set_user_timezone.
  destruct args as [|name rest]; [done|].
  destruct (timezone name); unfold reply; run_m; [|done].
  repeat split. intros key Hk. cbn. by rewrite lookup_insert_ne.
Qed.

Lemma cmd_schedule_effect e w :
  let w' := (cmd_schedule e w).2 in
  streams (bot_data w') `sublist_of` streams (bot_data w) /\
  announcement_channel_id (bot_data w') = announcement_channel_id (bot_data w) /\
  user_timezones (bot_data w') = user_timezones (bot_data w).
Proof.
  cbn zeta. rewrite cmd_schedule_spec. cbn [snd bot_data].
  pose proof (clean_old_streams_frame e w) as (Hu & Hc & _).
  rewrite clean_old_streams_streams. split; [apply sublist_filter|done].
Qed.

Lemma owner_commands_user_timezones e args w :
  user_timezones (bot_data (cmd_addstream args w).2) = user_timezones (bot_data w) /\
  user_timezones (bot_data (cmd_removestream e args w).2) = user_timezones (bot_data w) /\
  user_timezones (bot_data (cmd_liststreams e w).2) = user_timezones (bot_data w) /\
  user_timezones (bot_data (cmd_setannouncechannel e args w).2)
  = user_timezones (bot_data w).
Proof.
  pose proof (clean_old_streams_frame e w) as (Hu & _). cbn zeta in Hu.
  repeat split.
  - unfold cmd_addstream.
    destruct args as [|a0 [|a1 [|tz rest]]]; try done.
    destruct (strptime _); [|done]. by destruct (timezone tz).
  - unfold cmd_removestream, remove_stream_at. run_m.
    destruct (clean_old_streams e w) as [[] w1]. cbn [snd] in Hu.
    destruct args as [|a0 rest]; [done|].
    destruct (isdigit a0); [|done]. run_m.
    destruct (_ && _); [|done].
    by destruct (streams (bot_data w1) !! _).
  - unfold cmd_liststreams. run_m.
    destruct (clean_old_streams e w) as [[] w1]. cbn [snd] in Hu.
    by destruct (streams (bot_data w1)).
  - unfold cmd_setannouncechannel.
    destruct args as [|a0 rest]; [done|].
    destruct (isdigit a0); [|done].
    by destruct (get_channel e (int a0)) as [[]|].
Qed.

(** X6.  What a handler can change.  Only a run of the announcer changes
    the last announced date.  A user's time zone changes only by a
    message of that user.  The destination changes, and a stream is
    added, only by a message of the owner: every other event leaves the
    destination alone and leaves of the streams a sublist. *)
Theorem handle_changes_only_its_own (owner : Z) (e : env) (ev : event) (w : world) :
  let w' := (handle owner e ev w).2 in
  (ev <> Trigger ->
   last_announced_date_utc (bot_data w') = last_announced_date_utc (bot_data w)) /\
  (forall key,
     (forall m, ev = Message m -> key <> pretty (author_id m)) ->
     user_timezones (bot_data w') !! key = user_timezones (bot_data w) !! key) /\
  ((forall m, ev = Message m -> author_id m <> owner) ->
   announcement_channel_id (bot_data w') = announcement_channel_id (bot_data w) /\
   streams (bot_data w') `sublist_of` streams (bot_data w)).
Proof.
  cbn zeta. split; [|split].
  - intros Hev. destruct ev as [| |m]; cbn [handle]; [|done|].
    + by destruct (clean_old_streams_store_frame e w) as (? & _).
    + by destruct (on_message_frame owner e m w) as (? & _).
  - intros key Hkey. destruct ev as [| |m]; cbn [handle].
    + pose proof (clean_old_streams_frame e w) as (Hu & _). cbn zeta in Hu.
      by rewrite Hu.
    + run_m. pose proof (announcer_effect e w) as (_ & Hu & _).
      cbn zeta in Hu. destruct (daily_schedule_announcer e w). cbn [snd] in *.
      by rewrite Hu.
    + specialize (Hkey m eq_refl).
      pose proof (owner_commands_user_timezones e) as Hown.
      destruct (on_message_cases owner e m w)
        as [-> | [[args ->] | [-> | [[_ [[args ->] | [[args ->] | [-> | [args ->]]]]]
                                   | [_ [c ->]]]]]]; try done.
      * by apply cmd_settimezone_effect.
      * pose proof (cmd_schedule_effect e w) as (_ & _ & ->). done.
      * by destruct (Hown args w) as (-> & _).
      * by destruct (Hown args w) as (_ & -> & _).
      * by destruct (Hown [] w) as (_ & _ & -> & _).
      * by destruct (Hown args w) as (_ & _ & _ & ->).
  - intros Hev. destruct ev as [| |m]; cbn [handle].
    + pose proof (clean_old_streams_frame e w) as (_ & Hc & _). cbn zeta in Hc.
      split; [done|]. rewrite clean_old_streams_streams. apply sublist_filter.
    + run_m. pose proof (announcer_effect e w) as (Hs & _ & Hc & _).
      cbn zeta in Hs, Hc. destruct (daily_schedule_announcer e w).
      cbn [snd] in *. split; [done|].
      rewrite Hs, clean_old_streams_streams. apply sublist_filter.
    + specialize (Hev m eq_refl).
      destruct (on_message_cases owner e m w)
        as [-> | [[args ->] | [-> | [[Ho _] | [_ [c ->]]]]]]; try done.
      * by destruct (cmd_settimezone_effect (author_id m) args w) as (-> & -> & _).
      * by destruct (cmd_schedule_effect e w) as (? & ? & _).
Qed.

(** ** Time zones of users *)

(** X7.  After [set_user_timezone] with a zone [pytz] knows,
    [get_user_timezone] of that user gives the zone set and the file
    holds it; the zone of every other user is what it was, and the
    streams, the destination and the last announced date are untouched.
    A user without an entry has the zone "UTC". *)
Theorem set_then_get_user_timezone
    (user_id : Z) (timezone_name : string) (w : world) :
  is_Some (timezone timezone_name) ->
  let w' := (set_user_timezone user_id timezone_name w).2 in
  (set_user_timezone user_id timezone_name w).1 = true /\
  get_user_timezone user_id w' = (timezone_name, w') /\
  (forall other, other <> user_id ->
     (get_user_timezone other w').1 = (get_user_timezone other w).1) /\
  streams (bot_data w') = streams (bot_data w) /\
  announcement_channel_id (bot_data w') = announcement_channel_id (bot_data w) /\
  last_announced_date_utc (bot_data w') = last_announced_date_utc (bot_data w) /\
  schedule_file w' = Some (bot_data w') /\
  (forall other, user_timezones (bot_data w) !! pretty other = None ->
     (get_user_timezone other w).1 = "UTC"%string).
Proof.
  intros [info Hz]. cbn zeta. unfold set_user_timezone, get_user_timezone.
  rewrite Hz. run_m. cbn.
  split; [done|]. split; [by rewrite lookup_insert_eq|].
  split.
  { intros other Hne. rewrite lookup_insert_ne; [done|].
    intros Heq. by apply (inj pretty) in Heq. }
  repeat split. by intros other ->.
Qed.

(** ** The snapshot at the start *)

(** X8.  [load_data] gives the empty dictionary for a missing file and
    for a file that is not JSON, with the warning only for the latter.
    The dictionary it gives always has the keys
    [announcement_channel_id] and [last_announced_date_utc]; the keys the
    file has keep their values, and the keys [streams] and
    [user_timezones] are not filled in when the file lacks them.  What
    [save_data] wrote is loaded as it was, and loading what was loaded
    changes nothing. *)
Theorem load_data_defaults (f : schedule_json) :
  let j := (load_data f).1 in
  is_Some (json_announcement_channel_id j) /\
  is_Some (json_last_announced_date_utc j) /\
  ((load_data f).2 = true <-> f = FileMalformed) /\
  (f = FileMissing \/ f = FileMalformed ->
   data_of_json j = Some (Data [] ∅ None None)) /\
  (forall j0, f = FileDict j0 ->
     json_streams j = json_streams j0 /\
     json_user_timezones j = json_user_timezones j0 /\
     json_announcement_channel_id j
     = Some (default None (json_announcement_channel_id j0)) /\
     json_last_announced_date_utc j
     = Some (default None (json_last_announced_date_utc j0)) /\
     (is_Some (data_of_json j) <->
      is_Some (json_streams j0) /\ is_Some (json_user_timezones j0))) /\
  (forall d, f = FileDict (json_of_data d) ->
     load_data f = (json_of_data d, false) /\ data_of_json j = Some d) /\
  load_data (FileDict j) = (j, false).
Proof.
  cbn zeta. destruct f as [| |j0]; cbn [load_data fst snd].
  - repeat split; try done; eauto.
  - repeat split; try done; eauto.
  - split; [by destruct (json_announcement_channel_id j0); eauto|].
    split; [by destruct (json_last_announced_date_utc j0); eauto|].
    split; [done|]. split; [by intros [|]|].
    split.
    { intros j1 [= <-]. destruct j0 as [[l|] [u|] [c|] [d|]]; cbn;
        repeat split; try done; eauto;
        try (by intros [? [=]]); try (by intros [[? [=]] _]);
        try (by intros [_ [? [=]]]). }
    split.
    { intros d [= ->]. by destruct d. }
    cbn. by destruct j0 as [? ? [c|] [d|]].
Qed.

(** ** The words of a command *)

Lemma split_space_cons s : exists p ps, split_space s = p :: ps.
Proof.
  induction s as [|c r (p & ps & IH)]; [by eexists _, _|].
  cbn. case_bool_decide; [by eexists _, _|]. rewrite IH. by eexists _, _.
Qed.

Lemma join_space_cons x y r :
  join_space (x :: y :: r) = x +:+ " " +:+ join_space (y :: r).
Proof. done. Qed.

Lemma join_split s : join_space (split_space s) = s.
Proof.
  induction s as [|c r IH]; [done|]. cbn [split_space].
  destruct (split_space_cons r) as (p & ps & Hr). rewrite Hr in *.
  case_bool_decide as Hc.
  - rewrite join_space_cons, IH. by subst c.
  - destruct ps as [|q qs].
    + cbn in *. by rewrite IH.
    + rewrite join_space_cons. rewrite join_space_cons in IH. by rewrite <- IH.
Qed.

Lemma split_space_app a r :
  no_space a -> split_space (a +:+ " " +:+ r) = a :: split_space r.
Proof.
  induction a as [|c a IH]; [done|]. intros [Hc Ha].
  change (split_space (String c (a +:+ " " +:+ r)) = String c a :: split_space r).
  cbn [split_space]. rewrite bool_decide_eq_false_2 by done.
  by rewrite (IH Ha).
Qed.

(** X9.  The words of a command are cut at single spaces and the
    description is put together again with single spaces, which gives the
    text back: [addstream] from the owner stores the description as it
    was typed after the zone, whatever spaces it has, with the date and
    the time joined by one space. *)
Theorem addstream_keeps_description
    (owner : Z) (e : env) (m : incoming) (w : world) (d t z desc : string) :
  from_self m = false -> author_id m = owner ->
  content m = "!addstream" +:+ " " +:+ d +:+ " " +:+ t +:+ " " +:+ z +:+ " " +:+ desc ->
  no_space d -> no_space t -> no_space z ->
  is_Some (strptime (d +:+ " " +:+ t)) -> is_Some (timezone z) ->
  let new_stream := Stream (d +:+ " " +:+ t) z desc in
  let w' := (on_message owner e m w).2 in
  join_space (split_space desc) = desc /\
  streams (bot_data w') = streams (bot_data w) ++ [new_stream] /\
  sent w' = sent w ++ [(Reply, StreamAdded new_stream)] /\
  schedule_file w' = Some (bot_data w').
Proof.
  intros Hself Ho Hc Hd Ht Hz [naive Hp] [info Hi]. cbn zeta.
  split; [apply join_split|].
  unfold on_message. rewrite Hself, Hc.
  change (starts_with_bang _) with true. cbn [negb].
  change (drop_first _)
    with ("addstream" +:+ " " +:+ d +:+ " " +:+ t +:+ " " +:+ z +:+ " " +:+ desc).
  rewrite (split_space_app "addstream") by (cbn; repeat split; done).
  rewrite !split_space_app by done.
  change (lower "addstream") with "addstream"%string.
  rewrite !(bool_decide_eq_false_2 ("addstream"%string = _)) by done.
  rewrite Ho, Z.eqb_refl. rewrite bool_decide_eq_true_2 by done.
  unfold cmd_addstream. rewrite Hp, Hi, join_split. unfold reply. by run_m.
Qed.

Lemma lower_char_space c : lower_char c = " "%char -> c = " "%char.
Proof. by destruct c as [[] [] [] [] [] [] [] []]. Qed.

Lemma lower_char_idemp c : lower_char (lower_char c) = lower_char c.
Proof. by destruct c as [[] [] [] [] [] [] [] []]. Qed.

Lemma lower_idemp s : lower (lower s) = lower s.
Proof.
  induction s as [|c r IH]; [done|]. cbn. by rewrite lower_char_idemp, IH.
Qed.

Lemma lower_no_space s : no_space s -> no_space (lower s).
Proof.
  induction s as [|c r IH]; [done|]. intros [Hc Hr]. cbn.
  split; [|by apply IH]. intros Hl. by apply lower_char_space in Hl.
Qed.

(** X10.  The command word is compared in lower case and the arguments
    are passed on as typed: a message does what the same message with
    its command word in lower case does. *)
Theorem command_word_ignores_case
    (owner : Z) (e : env) (author : Z) (self : bool) (c rest : string) (w : world) :
  no_space c ->
  on_message owner e (Incoming author self ("!" +:+ c +:+ " " +:+ rest)) w =
  on_message owner e (Incoming author self ("!" +:+ lower c +:+ " " +:+ rest)) w /\
  on_message owner e (Incoming author self ("!" +:+ c)) w =
  on_message owner e (Incoming author self ("!" +:+ lower c)) w.
Proof.
  intros Hc. unfold on_message. cbn [from_self content author_id].
  change (starts_with_bang ("!" +:+ ?x)) with true. cbn [negb].
  change (drop_first ("!" +:+ ?x)) with x.
  split.
  - rewrite !split_space_app by auto using lower_no_space.
    by rewrite lower_idemp.
  - assert (forall a, no_space a -> split_space a = [a]) as Hone.
    { induction a as [|x a IH]; [done|]. intros [Hx Ha]. cbn [split_space].
      rewrite bool_decide_eq_false_2 by done. by rewrite (IH Ha). }
    rewrite !Hone by auto using lower_no_space. by rewrite lower_idemp.
Qed.

(** ** Commands one after the other *)

(** X11.  A stream [addstream] has stored, whose instant is later than
    the two clock readings of a following [schedule], is in the listing
    that [schedule] answers with; when its instant is not later than
    the first of these readings, the prune of [schedule] removes it. *)
Theorem added_stream_is_listed
    (e : env) (w : world) (a0 a1 tz : string) (rest : list string)
    (naive : NaiveDT) (info : TzInfo) :
  strptime (a0 +:+ " " +:+ a1) = Some naive -> timezone tz = Some info ->
  let t := localize info naive in
  let new_stream := Stream (a0 +:+ " " +:+ a1) tz (join_space rest) in
  let w1 := (cmd_addstream (a0 :: a1 :: tz :: rest) w).2 in
  let w2 := (cmd_schedule e w1).2 in
  new_stream ∈ streams (bot_data w1) /\
  (clock e (clock_reads w) < t * 1000000 ->
   clock e (S (clock_reads w)) < t * 1000000 ->
   new_stream ∈ streams (bot_data w2) /\
   exists listing,
     sent w2 = sent w1 ++ [(Reply, UpcomingSchedule listing)] /\
     (t, join_space rest) ∈ listing) /\
  (t * 1000000 <= clock e (clock_reads w) ->
   new_stream ∉ streams (bot_data w2)).
Proof.
  intros Hp Hi. cbn zeta.
  pose proof (stream_dt_localized_new a0 a1 tz rest naive info Hp Hi) as Hs.
  set (new_stream := Stream (a0 +:+ " " +:+ a1) tz (join_space rest)) in *.
  assert ((cmd_addstream (a0 :: a1 :: tz :: rest) w).2
          = World (with_streams (streams (bot_data w) ++ [new_stream]) (bot_data w))
                  (Some (with_streams (streams (bot_data w) ++ [new_stream])
                           (bot_data w)))
                  (S (saves w)) (console w)
                  (sent w ++ [(Reply, StreamAdded new_stream)]) (clock_reads w))
    as ->.
  { unfold cmd_addstream. rewrite Hp, Hi. unfold reply. by run_m. }
  rewrite cmd_schedule_spec. cbn [snd bot_data sent clock_reads].
  rewrite clean_old_streams_streams. cbn [bot_data clock_reads with_streams streams].
  split; [apply elem_of_app; right; left|].
  split.
  - intros H0 H1.
    assert (new_stream ∈ pruneExpired (clock e (clock_reads w))
                           (streams (bot_data w) ++ [new_stream])) as Hin.
    { apply list_elem_of_filter. split.
      - rewrite (expired_inr _ _ _ Hs). lia.
      - apply elem_of_app. right. left. }
    split; [done|].
    assert ((localize info naive, join_space rest)
              ∈ upcoming (clock e (S (clock_reads w)))
                  (pruneExpired (clock e (clock_reads w))
                     (streams (bot_data w) ++ [new_stream]))) as Hup.
    { apply upcoming_elem. exists new_stream. by repeat split. }
    unfold schedule_text.
    destruct (upcoming _ _) as [|x u] eqn:Hu; [by apply not_elem_of_nil in Hup|].
    eexists. split; [done|]. by rewrite sort_by_timestamp_perm.
  - intros Hle Hin. apply list_elem_of_filter in Hin as [Hne _].
    apply Hne. by rewrite (expired_inr _ _ _ Hs).
Qed.

(** X12.  The positions [liststreams] shows are those [removestream]
    takes: the answer has one row for each stream the prune left,
    malformed ones too, with its position; and a [removestream] that
    follows with the position of a row, at a clock reading not later than
    the reading of the list's prune, removes the stream of that row. *)
Theorem listed_index_removes_listed_stream
    (e e' : env) (w : world) (i : nat) (s : stream) (a0 : string)
    (rest : list string) :
  let w1 := (cmd_liststreams e w).2 in
  streams (bot_data w1) !! i = Some s ->
  clock e' (clock_reads w1) <= clock e (clock_reads w) ->
  isdigit a0 = true -> int a0 = Z.of_nat i ->
  let w2 := (cmd_removestream e' (a0 :: rest) w1).2 in
  (exists rows,
     sent w1 = sent w ++ [(Reply, AllStoredStreams rows)] /\
     length rows = length (streams (bot_data w1)) /\
     rows !! i = Some (i, s)) /\
  sent w2 = sent w1 ++ [(Reply, RemovedStream s)] /\
  streams (bot_data w2) = delete i (streams (bot_data w1)).
Proof.
  cbn zeta.
  assert ((cmd_liststreams e w).2
          = (reply (match streams (bot_data (clean_old_streams e w).2) with
                    | [] => NoStreamsStored
                    | _ => AllStoredStreams
                             (imap (fun i s => (i, s))
                                (streams (bot_data (clean_old_streams e w).2)))
                    end) (clean_old_streams e w).2).2) as Hlist.
  { unfold cmd_liststreams. run_m.
    destruct (clean_old_streams e w) as [[] w1]. cbn [snd].
    by destruct (streams (bot_data w1)). }
  rewrite Hlist. unfold reply at 1 2 3 4 5 6 7. run_m.
  pose proof (clean_old_streams_frame e w) as (_ & _ & _ & Hsent & Hreads).
  pose proof (clean_old_streams_streams e w) as Hst.
  cbn zeta in Hsent, Hreads.
  destruct (clean_old_streams e w) as [[] w1]. cbn [snd] in *.
  intros Hi Hle Hd Hint. split.
  { destruct (streams (bot_data w1)) as [|x l] eqn:Hl; [done|].
    eexists. rewrite Hsent. split; [done|]. rewrite length_imap.
    split; [done|]. by rewrite list_lookup_imap, Hi. }
  unfold cmd_removestream. run_m. rewrite Hd.
  set (w1' := World (bot_data w1) (schedule_file w1) (saves w1) (console w1)
                    (sent w1 ++ _) (clock_reads w1)) in *.
  assert (pruneExpired (clock e' (clock_reads w1')) (streams (bot_data w1'))
          = streams (bot_data w1')) as Hsame.
  { cbn [w1' bot_data clock_reads]. rewrite Hst. by apply pruneExpired_earlier. }
  pose proof (clean_old_streams_removes_expired_or_nothing e' w1'
                (pruneExpired_nothing_expired _ _ Hsame)) as (Hb & _).
  pose proof (clean_old_streams_frame e' w1') as (_ & _ & _ & Hsent' & _).
  cbn zeta in Hb, Hsent'.
  destruct (clean_old_streams e' w1') as [[] w2]. cbn [snd] in *.
  unfold remove_stream_at. run_m. rewrite Hb, Hint, Nat2Z.id.
  cbn [w1' bot_data].
  pose proof (lookup_lt_Some _ _ _ Hi) as Hlt.
  destruct (Z.leb_spec 0 (Z.of_nat i)); [|lia].
  destruct (Z.ltb_spec (Z.of_nat i) (Z.of_nat (length (streams (bot_data w1)))));
    [|lia].
  cbn [andb]. rewrite Hi. unfold reply. run_m. by rewrite Hsent'.
Qed.

(** X13.  [setannouncechannel] stores the id it reads when
    [client.get_channel] finds a text channel for it, and saves; with an
    argument in ASCII that is not a string of digits, or for which no
    text channel is found, and with no argument, it leaves [bot_data]
    and the file alone.  After it has stored an id other than 0, a run
    of the announcer that finds the channel, on a day not yet announced
    and with the send going through, sends its message to that
    channel. *)
Theorem announcement_goes_to_channel_set
    (e : env) (args : list string) (w : world) :
  let w1 := (cmd_setannouncechannel e args w).2 in
  (forall a0 rest,
     args = a0 :: rest -> isdigit a0 = true ->
     get_channel e (int a0) = Some true ->
     announcement_channel_id (bot_data w1) = Some (int a0) /\
     schedule_file w1 = Some (bot_data w1) /\
     forall e',
       int a0 <> 0 -> is_Some (get_channel e' (int a0)) ->
       (forall text, channel_send e' (int a0) text = Delivered) ->
       last_announced_date_utc (bot_data w)
       <> Some (utc_date (clock e' (S (clock_reads w)))) ->
       (daily_schedule_announcer e' w1).1 = Announced /\
       exists text,
         sent (daily_schedule_announcer e' w1).2
         = sent w1 ++ [(ToChannel (int a0), text)]) /\
  ((forall a0 rest,
      args = a0 :: rest ->
      ascii_text a0 /\
      (isdigit a0 = true -> get_channel e (int a0) <> Some true)) ->
   bot_data w1 = bot_data w /\ schedule_file w1 = schedule_file w /\
   saves w1 = saves w).
Proof.
  cbn zeta. split.
  - intros a0 rest -> Hd Hg. unfold cmd_setannouncechannel.
    rewrite Hd, Hg. unfold reply. run_m. cbn.
    split; [done|]. split; [done|].
    intros e' Hnz [b Hg'] Hsend Hlast.
    rewrite (announcer_delivery e' _ (int a0) b), Hsend by done.
    cbn. eauto.
  - intros Hno. unfold cmd_setannouncechannel.
    destruct args as [|a0 rest]; [done|].
    destruct (isdigit a0) eqn:Hd; [|done].
    destruct (Hno a0 rest eq_refl) as [_ Hg]. specialize (Hg Hd).
    by destruct (get_channel e (int a0)) as [[]|].
Qed.

(** X14.  When [client.get_channel] does not find the destination, the
    run prints that, sends nothing and leaves the last announced date,
    so that a later run of the same day, on which the channel is found
    and the send goes through, announces. *)
Theorem unreachable_destination_can_retry (e : env) (w : world) (id : Z) :
  announcement_channel_id (bot_data w) = Some id -> id <> 0 ->
  last_announced_date_utc (bot_data w)
  <> Some (utc_date (clock e (S (clock_reads w)))) ->
  get_channel e id = None ->
  let r := daily_schedule_announcer e w in
  r.1 = Skipped /\
  sent r.2 = sent w /\
  last (console r.2) = Some (ChannelNotFound id) /\
  last_announced_date_utc (bot_data r.2) = last_announced_date_utc (bot_data w) /\
  bot_data r.2 = bot_data (clean_old_streams e w).2 /\
  forall e',
    is_Some (get_channel e' id) ->
    (forall text, channel_send e' id text = Delivered) ->
    last_announced_date_utc (bot_data w)
    <> Some (utc_date (clock e' (S (clock_reads r.2)))) ->
    (daily_schedule_announcer e' r.2).1 = Announced /\
    exists text,
      sent (daily_schedule_announcer e' r.2).2 = sent w ++ [(ToChannel id, text)].
Proof.
  intros Hc Hnz Hlast Hg. cbn zeta.
  rewrite (announcer_unreachable e w id) by done. run_m.
  pose proof (clean_old_streams_frame e w) as (_ & Hid & Hl & Hs & _).
  cbn zeta in Hid, Hl, Hs.
  split; [done|]. split; [done|]. split; [by rewrite last_snoc|].
  split; [done|]. split; [done|].
  intros e' [b Hg'] Hsend Hlast'.
  rewrite (announcer_delivery e' _ id b), Hsend; cbn; rewrite ?Hid, ?Hl, ?Hs;
    eauto.
Qed.

End Further.

(** * The handlers on the sample library *)

#[local] Existing Instance Sample.lib.

Lemma launch_localized : stream_dt_localized Sample.launch = inr 1893492000.
Proof. reflexivity. Qed.

Lemma pruneExpired_launch now :
  pruneExpired now [Sample.launch]
  = if decide (now < 1893492000000000) then [Sample.launch] else [].
Proof.
  unfold pruneExpired. rewrite filter_cons, filter_nil.
  pose proof (expired_inr now _ _ launch_localized) as He.
  destruct (decide (~ expired now Sample.launch)) as [Hk|Hx],
    (decide (now < 1893492000000000)) as [Hlt|Hge]; try done.
  - exfalso. apply Hk, He. lia.
  - exfalso. apply Hx. rewrite He. lia.
Qed.

Lemma upcoming_launch now :
  now < 1893492000000000 ->
  upcoming now [Sample.launch] = [(1893492000, "Launch"%string)].
Proof.
  intros Hlt. unfold upcoming. cbn [omap list_omap]. unfold upcoming_entry.
  rewrite launch_localized. by rewrite bool_decide_eq_true_2 by lia.
Qed.

(** C4, counterexample.  The timer fires a tenth of a second before
    [launch] and the clock passes [launch] before the listing is taken:
    the announcer reads the clock three times, its prune keeps [launch]
    and its listing is empty.  No run at a single instant [now] does
    both: it removes [launch] or it lists it. *)
Lemma announcer_reads_clock_three_times :
  let w := Sample.fresh (Data [Sample.launch] ∅ (Some 42) None) in
  let r := daily_schedule_announcer Sample.discord_ticking w in
  clock_reads r.2 = 3%nat /\
  streams (bot_data r.2) = [Sample.launch] /\
  sent r.2 = [(ToChannel 42, NoUpcomingNotice)] /\
  forall now,
    let r' := daily_schedule_announcer (Sample.discord now Delivered) w in
    ~ (streams (bot_data r'.2) = streams (bot_data r.2) /\
       sent r'.2 = sent r.2).
Proof.
  intros w r.
  assert (streams (bot_data r.2) = [Sample.launch]) as Hst by (by vm_compute).
  assert (sent r.2 = [(ToChannel 42, NoUpcomingNotice)]) as Hsent
    by (by vm_compute).
  split; [by vm_compute|]. split; [done|]. split; [done|].
  intros now r'. rewrite Hst, Hsent. subst r'. intros [Hs' Hsent'].
  pose proof (announcer_effect (Sample.discord now Delivered) w)
    as (Has & _ & _ & Heff).
  cbn zeta in Has, Heff.
  rewrite clean_old_streams_streams in Has, Heff.
  cbn [Sample.discord clock w Sample.fresh bot_data streams sent] in Has, Heff.
  rewrite pruneExpired_launch in Has, Heff.
  destruct (decide (now < 1893492000000000)) as [Hlt|Hge];
    [|by rewrite Has in Hs'].
  rewrite upcoming_launch in Heff by done.
  destruct Heff as [(_ & id & _ & _ & _ & _ & _ & Hsent'' & _)|(_ & Hsent'' & _)];
    rewrite Hsent'' in Hsent'; cbn in Hsent'; by simplify_eq.
Qed.

(** C7, counterexample.  No destination is configured and [launch] is
    past: the run ends skipped, and it has removed [launch] from
    [bot_data] and written the file. *)
Lemma announcer_unconfigured_still_prunes :
  let w := Sample.fresh (Data [Sample.launch] ∅ None None) in
  let r := daily_schedule_announcer
             (Sample.discord Sample.at_2030_06_01 Delivered) w in
  announcement_channel_id (bot_data w) = None /\
  r.1 = Skipped /\
  streams (bot_data w) = [Sample.launch] /\
  streams (bot_data r.2) = [] /\
  schedule_file w = None /\
  schedule_file r.2 = Some (Data [] ∅ None None) /\
  saves r.2 = 1%nat /\
  bot_data r.2 <> bot_data w.
Proof.
  cbn zeta. do 7 (split; [by vm_compute|]).
  intros Heq. apply (f_equal streams) in Heq. by vm_compute in Heq.
Qed.

(** C5, the defect.  The destination is found and the send raises
    [discord.Forbidden].  With [launch] to announce, the failure is
    caught: a line is printed, the run ends skipped and the last
    announced date is untouched.  With nothing to announce, the send of
    the notice is outside the [try]: the exception leaves the announcer,
    and no line about it is printed. *)
Theorem announcer_notice_send_failure_escapes :
  let e := Sample.discord Sample.at_2029_12_31 Forbidden in
  let listed := daily_schedule_announcer e
                  (Sample.fresh (Data [Sample.launch] ∅ (Some 42) None)) in
  let empty := daily_schedule_announcer e
                 (Sample.fresh (Data [] ∅ (Some 42) None)) in
  (listed.1 = Skipped /\
   console listed.2 = [NoOldStreams; NoSendPermission 42] /\
   last_announced_date_utc (bot_data listed.2) = None /\
   sent listed.2 = []) /\
  (empty.1 = Raised Forbidden /\
   console empty.2 = [NoOldStreams] /\
   last_announced_date_utc (bot_data empty.2) = None /\
   sent empty.2 = []).
Proof. cbn zeta. repeat split; by vm_compute. Qed.

(** ** The examples of the specification *)

Example launch_upcoming_in_2029 :
  upcoming Sample.at_2029_12_31 [Sample.launch] = [(1893492000, "Launch"%string)].
Proof. reflexivity. Qed.

Example launch_pruned_in_2030 :
  let w := (clean_old_streams (Sample.discord Sample.at_2030_06_01 Delivered)
              (Sample.fresh (Data [Sample.launch] ∅ None None))).2 in
  streams (bot_data w) = [] /\ upcoming Sample.at_2030_06_01 (streams (bot_data w)) = [].
Proof. by vm_compute. Qed.

Example empty_store_schedule :
  sent (cmd_schedule (Sample.discord Sample.at_2029_12_31 Delivered)
          (Sample.fresh Sample.empty_data)).2
  = [(Reply, NoUpcomingNotice)].
Proof. reflexivity. Qed.

Example ties_keep_insertion_order :
  sort_by_timestamp
    (upcoming Sample.at_2029_12_31
       [Sample.launch; Sample.tie; Sample.broken; Sample.eve])
  = [(1893452400, "Eve"); (1893492000, "Launch"); (1893492000, "Tie")]%string.
Proof. by vm_compute. Qed.

(** ** The theorems at concrete inputs *)

Lemma announcer_at_most_once_per_day_witness :
  let e := Sample.discord Sample.at_2029_12_31 Delivered in
  let w := Sample.fresh (Data [Sample.launch] ∅ (Some 42) None) in
  let first := daily_schedule_announcer e w in
  let second := daily_schedule_announcer e first.2 in
  (first.1 = Announced /\
   (exists text, sent first.2 = sent w ++ [(ToChannel 42, text)]) /\
   last_announced_date_utc (bot_data first.2) = Some "2029-12-31"%string /\
   schedule_file first.2 = Some (bot_data first.2)) /\
  (second.1 = Suppressed /\ sent second.2 = sent first.2 /\
   last_announced_date_utc (bot_data second.2) = Some "2029-12-31"%string) /\
  (length (announcements (run 1 [(e, Trigger); (e, Trigger); (e, Ready)] w))
   <= 1)%nat.
Proof.
  intros e w first second.
  destruct (announcer_at_most_once_per_day "2029-12-31")
    as (H1 & H2 & _ & H4 & _).
  split; [|split].
  - apply (H1 e w 42); try by vm_compute.
    + by eexists.
  - apply (H2 e first.2 42); by vm_compute.
  - apply (H4 1 [(e, Trigger); (e, Trigger); (e, Ready)] w).
    unfold same_day. repeat constructor.
Defined.

Lemma clean_old_streams_removes_exactly_expired_witness :
  let e := Sample.discord Sample.at_2030_06_01 Delivered in
  let w := Sample.fresh (Data [Sample.launch; Sample.broken] ∅ None None) in
  let w' := (clean_old_streams e w).2 in
  (exists s, s ∈ streams (bot_data w) /\ expired (clock e (clock_reads w)) s) /\
  malformed Sample.broken /\
  streams (bot_data w') = [Sample.broken] /\
  saves w' = 1%nat /\ schedule_file w' = Some (bot_data w') /\
  exists ex, stream_dt_localized Sample.broken = inl ex /\
    WarnCleanupSkipped Sample.broken ex ∈ drop (length (console w)) (console w').
Proof.
  intros e w w'.
  destruct (clean_old_streams_removes_exactly_expired e w)
    as (H1 & _ & H3 & H4 & _).
  assert (exists s, s ∈ streams (bot_data w) /\ expired (clock e (clock_reads w)) s)
    as Hex.
  { exists Sample.launch. split; [left|]. by vm_compute. }
  assert (malformed Sample.broken) as Hm by exact I.
  split; [exact Hex|]. split; [exact Hm|].
  split; [etrans; [exact H1|by vm_compute]|].
  destruct (H4 Hex) as [Hs Hf].
  destruct (H3 Sample.broken) as [_ Hw]; [right; left|exact Hm|].
  by repeat split.
Defined.

Lemma upcoming_listing_sorted_stable_witness :
  let now := Sample.at_2029_12_31 in
  let l := [Sample.launch; Sample.tie; Sample.broken; Sample.eve] in
  let e := Sample.discord now Delivered in
  let w := Sample.fresh (Data l ∅ (Some 42) None) in
  Sample.broken ∈ l /\ malformed Sample.broken /\
  (SkipMalformed Sample.broken ∈ skip_lines SkipMalformed SkipUnknownTimezone l \/
   SkipUnknownTimezone Sample.broken ∈ skip_lines SkipMalformed SkipUnknownTimezone l) /\
  sent (cmd_schedule e w).2 =
    sent w ++ [(Reply, schedule_text (upcoming now l))] /\
  exists id, sent (daily_schedule_announcer e w).2 =
    sent w ++ [(ToChannel id, announcement_text (upcoming now l))].
Proof.
  intros now l e w.
  destruct (upcoming_listing_sorted_stable now l)
    as (_ & _ & _ & _ & Hloop & _ & _ & Hsched & Hann).
  assert (Sample.broken ∈ l) as Hin by (right; right; left).
  assert (malformed Sample.broken) as Hm by exact I.
  destruct (Hloop SkipMalformed SkipUnknownTimezone w) as (_ & _ & Hskip).
  destruct (Hskip Sample.broken Hin Hm) as [_ Hline].
  split; [exact Hin|]. split; [exact Hm|]. split; [exact Hline|].
  split.
  - apply Hsched; by vm_compute.
  - apply Hann; by vm_compute.
Defined.

Lemma clock_read_once_per_phase_witness :
  let now := Sample.at_2029_12_31 in
  let e := Sample.discord now Delivered in
  let l := [Sample.launch; Sample.eve] in
  let w := Sample.fresh (Data l ∅ (Some 42) None) in
  streams (bot_data (cmd_schedule e w).2) = pruneExpired now l /\
  sent (cmd_schedule e w).2 = sent w ++ [(Reply, schedule_text (upcoming now l))] /\
  streams (bot_data (daily_schedule_announcer e w).2) = pruneExpired now l /\
  exists id, sent (daily_schedule_announcer e w).2 =
    sent w ++ [(ToChannel id, announcement_text (upcoming now l))].
Proof.
  intros now e l w.
  destruct (clock_read_once_per_phase e w) as (_ & _ & _ & Hlist & Hann).
  destruct (Hlist now eq_refl eq_refl) as [H1 H2].
  destruct (Hann now eq_refl eq_refl) as [H3 H4].
  split; [exact H1|]. split; [exact H2|]. split; [exact H3|].
  apply H4. by vm_compute.
Defined.

Lemma remove_stream_at_index_witness :
  let l := [Sample.launch; Sample.tie; Sample.eve] in
  let w := Sample.fresh (Data l ∅ None None) in
  (0 <= 1 < Z.of_nat (length l) /\
   streams (bot_data (remove_stream_at 1 w).2) = [Sample.launch; Sample.eve] /\
   sent (remove_stream_at 1 w).2 = [(Reply, RemovedStream Sample.tie)]) /\
  (~ (0 <= 3 < Z.of_nat (length l)) /\
   bot_data (remove_stream_at 3 w).2 = bot_data w /\
   sent (remove_stream_at 3 w).2 = [(Reply, InvalidStreamIndex)]).
Proof.
  intros l w. split.
  - destruct (remove_stream_at_index 1 w) as (_ & Hin & _).
    assert (0 <= 1 < Z.of_nat (length l)) as Hr by (cbn; lia).
    destruct (Hin Hr) as (removed & Hlook & Hsent & Hst & _).
    cbn in Hlook. injection Hlook as <-.
    split; [exact Hr|]. split; [exact Hst|exact Hsent].
  - destruct (remove_stream_at_index 3 w) as (Hout & _).
    assert (~ (0 <= 3 < Z.of_nat (length l))) as Hr by (cbn; lia).
    destruct (Hout Hr) as (Hd & _ & _ & Hsent).
    split; [exact Hr|]. split; [exact Hd|exact Hsent].
Defined.

Lemma announcer_unconfigured_skips_witness :
  let e := Sample.discord Sample.at_2029_12_31 Delivered in
  let w := Sample.fresh (Data [Sample.launch] ∅ None None) in
  let r := daily_schedule_announcer e w in
  announcement_channel_id (bot_data w) = None /\
  r.1 = Skipped /\ sent r.2 = sent w /\
  bot_data r.2 = bot_data w /\ schedule_file r.2 = schedule_file w /\
  saves r.2 = saves w.
Proof.
  intros e w r.
  assert (announcement_channel_id (bot_data w) = None) as Hc by reflexivity.
  destruct (announcer_unconfigured_skips e w (or_introl Hc))
    as (Ho & Hs & _ & _ & _ & _ & _ & _ & Hnone).
  destruct Hnone as (Hd & Hf & Hn).
  { intros (s & Hin & He). apply list_elem_of_singleton in Hin. subst s.
    vm_compute in He. by apply He. }
  by repeat split.
Defined.

Lemma set_user_timezone_unknown_zone_witness :
  let w := Sample.fresh Sample.empty_data in
  timezone "Mars/Phobos" = None /\
  set_user_timezone 7 "Mars/Phobos" w = (false, w) /\
  bot_data (cmd_settimezone 7 ["Mars/Phobos"%string] w).2 = bot_data w.
Proof.
  intros w.
  assert (timezone "Mars/Phobos" = None) as Hz by reflexivity.
  destruct (set_user_timezone_unknown_zone 7 "Mars/Phobos" w Hz) as [Hf Hcmd].
  destruct (Hcmd []) as (Hd & _).
  by repeat split.
Defined.

Lemma addstream_never_appends_malformed_witness :
  let e := Sample.discord Sample.at_2029_12_31 Delivered in
  let history :=
    [(e, Message (Incoming 1 false "!addstream 2030-01-01 10:00 UTC Launch"));
     (e, Message (Incoming 1 false "!addstream 2030-13-01 10:00 UTC Never"));
     (e, Message (Incoming 1 false "!addstream 2030-01-01 10:00 Mars/Phobos Far"));
     (e, Message (Incoming 1 false "!addstream 9999-12-31 23:59 Etc/GMT+5 Far"));
     (e, Ready);
     (e, Trigger)] in
  let w := Sample.fresh Sample.empty_data in
  let w' := run_with_overflow (L := Sample.lib) Sample.sample_overflows
              1 history w in
  Forall (fun s => ~ malformed s) (streams (bot_data w)) /\
  streams (bot_data w') = [Sample.launch; Sample.far] /\
  existsb (localize_raises (L := Sample.lib) Sample.sample_overflows)
          (streams (bot_data w')) = true /\
  console w' = [] /\ clock_reads w' = 2%nat /\
  Forall (fun s => ~ malformed s) (streams (bot_data w')) /\
  console (overflow_abort (L := Sample.lib) Sample.sample_overflows w')
  = console w'.
Proof.
  intros e history w w'.
  destruct addstream_never_appends_malformed as (_ & _ & Hrun).
  assert (Forall (fun s => ~ malformed s) (streams (bot_data w))) as Hw
    by constructor.
  destruct (Hrun Sample.sample_overflows 1 history w Hw) as (Hall & Habort & _).
  split; [exact Hw|]. split; [by vm_compute|]. split; [by vm_compute|].
  split; [by vm_compute|]. split; [by vm_compute|].
  split; [exact Hall|exact Habort].
Defined.

(** ** The further properties at concrete inputs *)

Lemma clean_old_streams_twice_witness :
  let e1 := Sample.discord Sample.at_2030_06_01 Delivered in
  let e2 := Sample.discord Sample.at_2029_12_31 Delivered in
  let w := Sample.fresh (Data [Sample.launch; Sample.broken] ∅ None None) in
  let w1 := (clean_old_streams e1 w).2 in
  let w2 := (clean_old_streams e2 w1).2 in
  clock e2 (S (clock_reads w)) <= clock e1 (clock_reads w) /\
  streams (bot_data w2) = [Sample.broken] /\
  bot_data w2 = bot_data w1 /\ saves w2 = saves w1.
Proof.
  intros e1 e2 w w1 w2.
  destruct (clean_old_streams_twice e1 e2 w) as (Hst & _ & Hsame).
  assert (clock e2 (S (clock_reads w)) <= clock e1 (clock_reads w)) as Hle
    by (by vm_compute).
  destruct (Hsame Hle) as (Hd & _ & Hs).
  split; [exact Hle|]. split; [|by split].
  etrans; [exact Hst|by vm_compute].
Defined.

Lemma schedule_lists_every_stream_left_witness :
  let e := Sample.discord Sample.at_2029_12_31 Delivered in
  let w := Sample.fresh (Data [Sample.launch; Sample.broken] ∅ None None) in
  exists listing,
    sent (cmd_schedule e w).2 = sent w ++ [(Reply, UpcomingSchedule listing)] /\
    (1893492000, "Launch"%string) ∈ listing.
Proof.
  intros e w.
  apply (schedule_lists_every_stream_left e w Sample.launch 1893492000).
  - by vm_compute.
  - left.
  - reflexivity.
Defined.

Lemma on_message_unrecognized_witness :
  let e := Sample.discord Sample.at_2029_12_31 Delivered in
  let w := Sample.fresh Sample.empty_data in
  let stranger := Incoming 7 false "!AddStream 2030-01-01 10:00 UTC Launch" in
  let owner_typo := Incoming 1 false "!lsitstreams" in
  on_message 1 e (Incoming 1 true "!schedule") w = (tt, w) /\
  on_message 1 e stranger w = reply (UnknownCommand "addstream") w /\
  bot_data (on_message 1 e stranger w).2 = bot_data w /\
  on_message 1 e owner_typo w = (tt, w).
Proof.
  intros e w stranger owner_typo.
  destruct (on_message_unrecognized 1 e (Incoming 1 true "!schedule") w)
    as [Hself _].
  destruct (on_message_unrecognized 1 e stranger w) as [_ Hs].
  assert (lower "AddStream" <> "settimezone"%string) as N1 by (by vm_compute).
  assert (lower "AddStream" <> "schedule"%string) as N2 by (by vm_compute).
  destruct (Hs "AddStream"%string ["2030-01-01"; "10:00"; "UTC"; "Launch"]%string
              eq_refl eq_refl eq_refl N1 N2) as [Hstranger _].
  assert (author_id stranger <> 1) as Hne by (by vm_compute).
  destruct (Hstranger Hne) as (H1 & H2 & _).
  destruct (on_message_unrecognized 1 e owner_typo w) as [_ Ho].
  assert (lower "lsitstreams" <> "settimezone"%string) as M1 by (by vm_compute).
  assert (lower "lsitstreams" <> "schedule"%string) as M2 by (by vm_compute).
  destruct (Ho "lsitstreams"%string [] eq_refl eq_refl eq_refl M1 M2)
    as [_ Hown].
  split; [apply Hself; by left|].
  split; [exact H1|]. split; [exact H2|].
  apply Hown; by vm_compute.
Defined.

Lemma handlers_save_every_change_witness :
  let e := Sample.discord Sample.at_2029_12_31 Delivered in
  let d := Data [Sample.launch] ∅ (Some 42) None in
  let w := World d (Some d) 0 [] [] 0 in
  let history :=
    [(e, Ready); (e, Message (Incoming 7 false "!settimezone UTC"));
     (e, Trigger); (e, Message (Incoming 1 false "!removestream 0"))] in
  schedule_file w = Some (bot_data w) /\
  streams (bot_data (run 1 history w)) = [] /\
  schedule_file (run 1 history w) = Some (bot_data (run 1 history w)).
Proof.
  intros e d w history.
  destruct (handlers_save_every_change 1) as [_ Hrun].
  assert (schedule_file w = Some (bot_data w)) as Hw by reflexivity.
  split; [exact Hw|]. split; [by vm_compute|]. exact (Hrun history w Hw).
Defined.

Lemma handle_changes_only_its_own_witness :
  let e := Sample.discord Sample.at_2030_06_01 Delivered in
  let w := Sample.fresh (Data [Sample.launch] (<["8" := "UTC"]> ∅) (Some 42) None)%string in
  let ev := Message (Incoming 7 false "!settimezone Etc/GMT+5") in
  let w' := (handle 1 e ev w).2 in
  user_timezones (bot_data w') !! "7"%string = Some "Etc/GMT+5"%string /\
  user_timezones (bot_data w') !! "8"%string = Some "UTC"%string /\
  last_announced_date_utc (bot_data w') = None /\
  announcement_channel_id (bot_data w') = Some 42 /\
  streams (bot_data w') `sublist_of` [Sample.launch].
Proof.
  intros e w ev w'.
  destruct (handle_changes_only_its_own 1 e ev w) as (Hlast & Htz & Hown).
  split; [by vm_compute|].
  split.
  { etrans; [apply (Htz "8"%string)|by vm_compute].
    intros m [= <-]. by vm_compute. }
  split; [by apply Hlast|].
  apply Hown. intros m [= <-]. by vm_compute.
Defined.

Lemma set_then_get_user_timezone_witness :
  let w := Sample.fresh Sample.empty_data in
  let w' := (set_user_timezone 7 "Etc/GMT+5" w).2 in
  is_Some (timezone "Etc/GMT+5") /\
  (get_user_timezone 7 w').1 = "Etc/GMT+5"%string /\
  (get_user_timezone 8 w').1 = "UTC"%string.
Proof.
  intros w w'.
  assert (is_Some (timezone "Etc/GMT+5")) as Hz by (by eexists).
  destruct (set_then_get_user_timezone 7 "Etc/GMT+5" w Hz)
    as (_ & Hget & Hother & _ & _ & _ & _ & Hdefault).
  subst w'. split; [exact Hz|]. split; [by rewrite Hget|].
  rewrite (Hother 8) by done. by apply Hdefault.
Defined.

Lemma load_data_defaults_witness :
  let old := JsonData (Some [Sample.launch]) (Some ∅) None None in
  let d := Data [Sample.launch] ∅ (Some 42) (Some "2029-12-31"%string) in
  data_of_json (load_data (FileDict old)).1
  = Some (Data [Sample.launch] ∅ None None) /\
  data_of_json (load_data FileMalformed).1 = Some (Data [] ∅ None None) /\
  data_of_json (load_data (FileDict (json_of_data d))).1 = Some d.
Proof.
  intros old d.
  destruct (load_data_defaults (FileDict old)) as (_ & _ & _ & _ & Hold & _).
  destruct (Hold old eq_refl) as (Hs & Hu & Hc & Hl & _).
  destruct (load_data_defaults FileMalformed) as (_ & _ & _ & Hbad & _).
  destruct (load_data_defaults (FileDict (json_of_data d)))
    as (_ & _ & _ & _ & _ & Hround & _).
  destruct (Hround d eq_refl) as [_ Hd].
  split; [|split; [by apply Hbad; right|exact Hd]].
  unfold data_of_json. by rewrite Hs, Hu, Hc, Hl.
Defined.

Lemma addstream_keeps_description_witness :
  let e := Sample.discord Sample.at_2029_12_31 Delivered in
  let w := Sample.fresh Sample.empty_data in
  let m := Incoming 1 false "!addstream 2030-01-01 10:00 UTC Launch  day, at  last" in
  streams (bot_data (on_message 1 e m w).2)
  = [Stream "2030-01-01 10:00" "UTC" "Launch  day, at  last"].
Proof.
  intros e w m.
  assert (no_space "2030-01-01" /\ no_space "10:00" /\ no_space "UTC")
    as (Hd & Ht & Hz) by (by cbn; repeat split).
  assert (is_Some (strptime ("2030-01-01" +:+ " " +:+ "10:00"))) as Hp
    by (by eexists).
  assert (is_Some (timezone "UTC")) as Hu by (by eexists).
  destruct (addstream_keeps_description 1 e m w "2030-01-01" "10:00" "UTC"
              "Launch  day, at  last" eq_refl eq_refl eq_refl Hd Ht Hz Hp Hu)
    as (_ & Hst & _).
  exact Hst.
Defined.

Lemma command_word_ignores_case_witness :
  let e := Sample.discord Sample.at_2029_12_31 Delivered in
  let w := Sample.fresh Sample.empty_data in
  no_space "SetTimeZone" /\
  on_message 1 e (Incoming 7 false "!SetTimeZone Etc/GMT+5") w =
  on_message 1 e (Incoming 7 false "!settimezone Etc/GMT+5") w.
Proof.
  intros e w.
  assert (no_space "SetTimeZone") as Hc by (by cbn; repeat split).
  split; [exact Hc|].
  by destruct (command_word_ignores_case 1 e 7 false "SetTimeZone" "Etc/GMT+5" w Hc).
Defined.

Lemma added_stream_is_listed_witness :
  let e := Sample.discord Sample.at_2029_12_31 Delivered in
  let w := Sample.fresh Sample.empty_data in
  let w1 := (cmd_addstream ["2030-01-01"; "10:00"; "UTC"; "Launch"]%string w).2 in
  exists listing,
    sent (cmd_schedule e w1).2 = sent w1 ++ [(Reply, UpcomingSchedule listing)] /\
    (1893492000, "Launch"%string) ∈ listing.
Proof.
  intros e w w1.
  destruct (added_stream_is_listed e w "2030-01-01" "10:00" "UTC"
              ["Launch"%string] (1893492000%Z : @NaiveDT Sample.lib)
              (0%Z : @TzInfo Sample.lib) eq_refl eq_refl)
    as (_ & Hlisted & _).
  assert (clock e (clock_reads w) < 1893492000 * 1000000) as H0
    by (by vm_compute).
  assert (clock e (S (clock_reads w)) < 1893492000 * 1000000) as H1
    by (by vm_compute).
  exact (proj2 (Hlisted H0 H1)).
Defined.

Lemma listed_index_removes_listed_stream_witness :
  let e := Sample.discord Sample.at_2029_12_31 Delivered in
  let w := Sample.fresh (Data [Sample.launch; Sample.tie; Sample.eve] ∅ None None) in
  let w1 := (cmd_liststreams e w).2 in
  let w2 := (cmd_removestream e ["1"%string] w1).2 in
  streams (bot_data w1) !! 1%nat = Some Sample.tie /\
  sent w2 = sent w1 ++ [(Reply, RemovedStream Sample.tie)] /\
  streams (bot_data w2) = delete 1%nat (streams (bot_data w1)).
Proof.
  intros e w w1 w2.
  assert (streams (bot_data w1) !! 1%nat = Some Sample.tie) as Hi
    by (by vm_compute).
  assert (clock e (clock_reads w1) <= clock e (clock_reads w)) as Hle
    by (by vm_compute).
  destruct (listed_index_removes_listed_stream e e w 1 Sample.tie "1" []
              Hi Hle eq_refl eq_refl) as (_ & Hsent & Hst).
  split; [exact Hi|]. split; [exact Hsent|exact Hst].
Defined.

Lemma announcement_goes_to_channel_set_witness :
  let e := Sample.discord Sample.at_2029_12_31 Delivered in
  let w := Sample.fresh (Data [Sample.launch] ∅ None None) in
  let w1 := (cmd_setannouncechannel e ["42"%string] w).2 in
  get_channel e (int "42") = Some true /\
  announcement_channel_id (bot_data w1) = Some 42 /\
  (daily_schedule_announcer e w1).1 = Announced /\
  bot_data (cmd_setannouncechannel e ["41"%string] w).2 = bot_data w.
Proof.
  intros e w w1.
  assert (get_channel e (int "42") = Some true) as Hg by reflexivity.
  destruct (announcement_goes_to_channel_set e ["42"%string] w) as [Hset _].
  destruct (Hset "42"%string [] eq_refl eq_refl Hg) as (Hid & _ & Hann).
  assert ((daily_schedule_announcer e w1).1 = Announced) as Ha.
  { apply Hann; [by vm_compute|by eexists|done|by vm_compute]. }
  destruct (announcement_goes_to_channel_set e ["41"%string] w) as [_ Hnot].
  assert (bot_data (cmd_setannouncechannel e ["41"%string] w).2 = bot_data w)
    as Hd.
  { apply Hnot. intros a0 rest [= <- <-]. split; [|done].
    cbn [ascii_text]. repeat split; apply Nat.ltb_lt; by vm_compute. }
  split; [exact Hg|]. split; [exact Hid|]. split; [exact Ha|exact Hd].
Defined.

Lemma unreachable_destination_can_retry_witness :
  let gone := Env (fun _ => Sample.at_2029_12_31) (fun _ => None)
                  (fun _ _ => Delivered) in
  let back := Sample.discord Sample.at_2029_12_31 Delivered in
  let w := Sample.fresh (Data [Sample.launch] ∅ (Some 42) None) in
  let r := daily_schedule_announcer gone w in
  get_channel gone 42 = None /\
  r.1 = Skipped /\ sent r.2 = [] /\
  (daily_schedule_announcer back r.2).1 = Announced.
Proof.
  intros gone back w r.
  assert (get_channel gone 42 = None) as Hg by reflexivity.
  assert (last_announced_date_utc (bot_data w)
          <> Some (utc_date (clock gone (S (clock_reads w))))) as Hl
    by (by vm_compute).
  destruct (unreachable_destination_can_retry gone w 42 eq_refl
              ltac:(by vm_compute) Hl Hg) as (Ho & Hs & _ & _ & _ & Hretry).
  assert ((daily_schedule_announcer back r.2).1 = Announced) as Ha.
  { apply Hretry; [by eexists|done|by vm_compute]. }
  split; [exact Hg|]. split; [exact Ho|]. split; [exact Hs|exact Ha].
Defined.

Lemma cmd_removestream_removes_at_most_one_witness :
  let e := Sample.discord Sample.at_2029_12_31 Delivered in
  let w := Sample.fresh (Data [Sample.launch; Sample.tie; Sample.eve] ∅ None None) in
  ascii_text "-1" /\ ascii_text "2" /\
  streams (bot_data (cmd_removestream e ["-1"%string] w).2)
  = [Sample.launch; Sample.tie; Sample.eve] /\
  streams (bot_data (cmd_removestream e ["2"%string] w).2)
  = [Sample.launch; Sample.tie].
Proof.
  intros e w.
  assert (ascii_text "-1") as H1
    by (cbn [ascii_text]; repeat split; apply Nat.ltb_lt; by vm_compute).
  assert (ascii_text "2") as H2
    by (cbn [ascii_text]; repeat split; apply Nat.ltb_lt; by vm_compute).
  split; [exact H1|]. split; [exact H2|]. split.
  - destruct (cmd_removestream_removes_at_most_one e ["-1"%string] w)
      as [Hsame|(a0 & rest & i & Heq & Hd & _)].
    + by intros a0 rest [= <- <-].
    + etrans; [exact Hsame|by vm_compute].
    + injection Heq as <- <-. by vm_compute in Hd.
  - destruct (cmd_removestream_removes_at_most_one e ["2"%string] w)
      as [Hsame|(a0 & rest & i & Heq & _ & Hi & _ & Hdel)].
    + by intros a0 rest [= <- <-].
    + by vm_compute in Hsame.
    + injection Heq as <- <-.
      assert (i = 2%nat) as -> by (change (int "2") with 2 in Hi; lia).
      etrans; [exact Hdel|by vm_compute].
Defined.
